(** * that-cli-web-toolbox: the browser-session orchestration layer

    A shallow embedding of [main.go] and [pkg/chromedp/chromedp.go].

    The Go code talks to three things outside itself: the [log/slog] facade,
    the operating system / network, and a browser driven through the
    [chromedp] library.  Every call that leaves the program is recorded as an
    [event] of the world's trace, and every answer that comes back is read
    from an oracle of the environment [Env], which sees the trace so far.
    Theorems quantify over all environments. *)

From Stdlib Require Import ZArith List String Ascii Bool Lia.
Import ListNotations.

Local Open Scope Z_scope.
Local Open Scope list_scope.
Local Open Scope string_scope.

(** ** Go's [int] and [time.Duration]

    [int] is 64 bits wide on the platforms the tool is built for
    (the Dockerfile builds for linux on the host architecture);
    [time.Duration] is an [int64] count of nanoseconds.  Arithmetic wraps
    around silently. *)

Module GoInt.

Definition MinInt : Z := - 2 ^ 63.
Definition MaxInt : Z := 2 ^ 63 - 1.

Definition in_range (z : Z) : Prop := MinInt <= z <= MaxInt.

Definition wrap (z : Z) : Z := (z - MinInt) mod 2 ^ 64 + MinInt.

Definition add (a b : Z) : Z := wrap (a + b).
Definition mul (a b : Z) : Z := wrap (a * b).

(** [time.Second], in nanoseconds. *)
Definition Second : Z := 1000000000.

(** [time.Duration(n) * time.Second] *)
Definition seconds (n : Z) : Z := mul n Second.

End GoInt.

(** ** The [strings] functions the code calls *)

Module Strings.

(** [strings.HasPrefix(s, prefix)] *)
Definition HasPrefix (s p : string) : bool := String.prefix p s.

(** [strings.Contains(s, substr)]: [substr] starts at some offset of [s]. *)
Fixpoint Contains (s substr : string) : bool :=
  String.prefix substr s
  || match s with
     | EmptyString => false
     | String _ rest => Contains rest substr
     end.

(** The loop of [strings.Split] for a separator that is not empty: [cur]
    is the component being read, [skip] the number of bytes of a matched
    separator still to pass over. *)
Fixpoint split_from (sep : string) (skip : nat) (cur s : string)
  : list string :=
  match s with
  | EmptyString => [cur]
  | String a rest =>
      match skip with
      | S k => split_from sep k cur rest
      | O =>
          if String.prefix sep s
          then cur :: split_from sep (String.length sep - 1) EmptyString rest
          else split_from sep 0 (cur ++ String a EmptyString) rest
      end
  end.

(** [strings.Split(s, sep)], for [sep <> ""] (the code splits on [":"]). *)
Definition Split (s sep : string) : list string :=
  split_from sep 0 EmptyString s.

(** [strings.Join(elems, sep)] *)
Definition Join (elems : list string) (sep : string) : string :=
  String.concat sep elems.

End Strings.

(** ** Errors and log records *)

(** A Go [error] is either made by this program with [fmt.Errorf] (kept as
    the format and its arguments, [%w] wrapping included), or handed over by
    a library. *)
Inductive error : Type :=
| ExternalError (text : string)
| Errorf (format : string) (args : list arg)
with arg : Type :=
| AString (s : string)
| AInt (n : Z)
| ABool (b : bool)
| AError (e : error).

Inductive Level : Type := LevelDebug | LevelInfo | LevelWarn | LevelError.

(** Go's [(T, error)] result pair. *)
Inductive result (A : Type) : Type :=
| Ok (a : A)
| Err (e : error).
Arguments Ok {A} a.
Arguments Err {A} e.

Definition is_Ok {A} (r : result A) : bool :=
  match r with Ok _ => true | Err _ => false end.

(** ** The world outside the program *)

(** A [context.Context] is named by a number; [Background] is
    [context.Background()]. *)
Definition ctx_id : Type := nat.
Definition Background : ctx_id := O.

(** What [chromedp.Evaluate] unmarshals the script's value into. *)
Inductive eval_target : Type :=
| IntoStrings   (* res is a *[]string *)
| IntoAny.      (* res is a *interface{} *)

(** The browser commands the code issues, each a [chromedp.Action] or a
    [cdproto] call executed on a context.  [Evaluate] is
    [chromedp.Evaluate], which evaluates the expression as it is and does
    not wait for a promise it may return ([asValue]: the option
    [chromedp.EvalAsValue] was passed); [RuntimeEvaluate] is
    [runtime.Evaluate] with its [awaitPromise] parameter; [Sleep] takes a
    [time.Duration]. *)
Inductive command : Type :=
| Navigate (url : string)
| Sleep (d : Z)
| Evaluate (expression : string) (res : eval_target) (asValue : bool)
| RuntimeEvaluate (expression : string) (awaitPromise : bool)
| FullScreenshot (quality : Z)
| PagePrintToPDF (printBackground : bool)
| HandleJavaScriptDialog (accept : bool).

(** The function literals of the code that outlive the call that creates
    them: the listener handed to [chromedp.ListenTarget] and the goroutine
    started for a dialog, each with the context it captures. *)
Inductive closure : Type :=
| ConsoleListener (c : ctx_id)
| LegacyConsoleListener (c : ctx_id)
| AcceptDialog (c : ctx_id).

Inductive event : Type :=
| Log (level : Level) (msg : string) (attrs : list (string * arg))
| SetDefaultLogger (level : Level)
| OsStat (path : string)
| HttpGet (url : string) (timeout : Z)
| NewRemoteAllocator (parent : ctx_id) (url : string) (c : ctx_id)
| NewContext (parent c : ctx_id)
| WithTimeout (parent : ctx_id) (d : Z) (c : ctx_id)
| CancelCalled (c : ctx_id)
| ListenTarget (c : ctx_id) (fn : closure)
| Go (fn : closure)
| RunCalled (c : ctx_id)
| Do (c : ctx_id) (cmd : command).

Record http_response : Type := {
  StatusCode : Z;
  BodyClose : option error
}.

(** The answers of the outside world.  Every oracle is given the trace up
    to its own call (the event of the call included, where the call is
    recorded), so an answer may depend on all that happened before. *)
Record Env : Type := {
  strings_ToLower : string -> string;
  strings_TrimSpace : string -> string;
  os_Stat : list event -> string -> option error;
  filepath_Abs : list event -> string -> result string;
  client_Get : list event -> string -> result http_response;
  (* chromedp.Run, before its first action: allocating the browser and
     the target of the context *)
  run_start : list event -> ctx_id -> option error;
  do_Navigate : list event -> ctx_id -> string -> option error;
  do_Sleep : list event -> ctx_id -> Z -> option error;
  do_Evaluate_strings : list event -> ctx_id -> string -> result (list string);
  do_Evaluate_any : list event -> ctx_id -> string -> option error;
  (* runtime.Evaluate(..).Do: the exception text, if the script threw *)
  do_RuntimeEvaluate : list event -> ctx_id -> string -> result (option string);
  do_FullScreenshot : list event -> ctx_id -> result (list Byte.byte);
  do_PrintToPDF : list event -> ctx_id -> result (list Byte.byte);
  do_HandleJavaScriptDialog : list event -> ctx_id -> option error
}.

Record World : Type := mkWorld {
  trace : list event;      (* oldest first *)
  contexts : nat           (* contexts created so far *)
}.

(** ** The monad of effectful Go code *)

Definition M (A : Type) : Type := World -> A * World.

Definition ret {A} (a : A) : M A := fun w => (a, w).

Definition bind {A B} (m : M A) (k : A -> M B) : M B :=
  fun w => let (a, w') := m w in k a w'.

Declare Scope go_scope.
Delimit Scope go_scope with go.
Notation "x <- m ;; k" := (bind m (fun x => k))
  (at level 61, m at next level, right associativity) : go_scope.
Notation "' pat <- m ;; k" := (bind m (fun x => match x with pat => k end))
  (at level 61, pat pattern, m at next level, right associativity) : go_scope.
Notation "m ;; k" := (bind m (fun _ => k))
  (at level 61, right associativity) : go_scope.
Local Open Scope go_scope.

Definition emit (e : event) : M unit :=
  fun w => (tt, {| trace := (trace w ++ [e])%list; contexts := contexts w |}).

(** Read an oracle at the current trace. *)
Definition ask {A} (oracle : list event -> A) : M A :=
  fun w => (oracle (trace w), w).

Definition fresh_ctx : M ctx_id :=
  fun w => (S (contexts w),
            {| trace := trace w; contexts := S (contexts w) |}).

Definition when (b : bool) (m : M unit) : M unit :=
  if b then m else ret tt.

(** The events a computation adds to a world. *)
Definition emitted {A} (m : M A) (w : World) : list event :=
  skipn (List.length (trace w)) (trace (snd (m w))).

(** [log/slog] *)
Definition slog_Debug (msg : string) (attrs : list (string * arg)) : M unit :=
  emit (Log LevelDebug msg attrs).
Definition slog_Info (msg : string) (attrs : list (string * arg)) : M unit :=
  emit (Log LevelInfo msg attrs).
Definition slog_Warn (msg : string) (attrs : list (string * arg)) : M unit :=
  emit (Log LevelWarn msg attrs).
Definition slog_Error (msg : string) (attrs : list (string * arg)) : M unit :=
  emit (Log LevelError msg attrs).

(** [context.WithTimeout], [chromedp.NewContext] and
    [chromedp.NewRemoteAllocator]: a new context and the function that
    cancels it. *)
Definition cancel_func (c : ctx_id) : M unit := emit (CancelCalled c).

Definition context_WithTimeout (parent : ctx_id) (d : Z)
  : M (ctx_id * M unit) :=
  c <- fresh_ctx ;;
  emit (WithTimeout parent d c) ;;
  ret (c, cancel_func c).

Definition chromedp_NewContext (parent : ctx_id) : M (ctx_id * M unit) :=
  c <- fresh_ctx ;;
  emit (NewContext parent c) ;;
  ret (c, cancel_func c).

Definition chromedp_NewRemoteAllocator (parent : ctx_id) (url : string)
  : M (ctx_id * M unit) :=
  c <- fresh_ctx ;;
  emit (NewRemoteAllocator parent url c) ;;
  ret (c, cancel_func c).

(** ** Events the browser delivers to a listener ([cdproto]) *)

Record CallFrame : Type := {
  FunctionName : string;
  URL : string;
  LineNumber : Z;
  ColumnNumber : Z
}.

Record ExceptionDetails : Type := {
  Text : string;
  StackTrace : option (list CallFrame)
}.

(** [runtime.RemoteObject]; [Value] holds the JSON encoding of the value. *)
Record RemoteObject : Type := { Value : string }.

Inductive browser_event : Type :=
| EventConsoleAPICalled (Type_ : string) (Args : list RemoteObject)
| EventExceptionThrown (details : ExceptionDetails)
| EventJavascriptDialogOpening
| OtherEvent (name : string).

(** ** [pkg/chromedp/chromedp.go]: package [chromedphelper] *)

(** [Browser] wraps a Chromedp context and target.  [Cancel] is the
    function value stored in the struct. *)
Record Browser : Type := {
  Ctx : ctx_id;
  Cancel : M unit;
  TargetURL : string;
  Delay : Z;
  JSCode : string
}.

(** [len(s)] of a Go string. *)
Definition len (s : string) : Z := Z.of_nat (String.length s).

Definition LF : string := String "010"%char EmptyString.
Definition TAB : string := String "009"%char EmptyString.
Definition double_quote : ascii := "034"%char.
Definition single_quote : ascii := "039"%char.
Definition backslash : ascii := "092"%char.

(** The two pieces of the raw string literals around [selector] in
    [GetTextBySelector]. *)
Definition selector_prefix : string :=
  LF ++ TAB ++ TAB ++ TAB ++ "Array.from(document.querySelectorAll('".
Definition selector_suffix : string :=
  "')).map(el => el.innerText.trim()).filter(text => text.length > 0)"
  ++ LF ++ TAB ++ TAB.

(** The header of the listener's console case (lines 188-191): [val] with
    its surrounding quotes cut off when it is a quoted JSON string. *)
Definition trim_quotes (val : string) : string :=
  if (2 <=? len val)%Z
     && match String.get 0 val with
        | Some c => Ascii.eqb c double_quote
        | None => false
        end
     && match String.get (String.length val - 1) val with
        | Some c => Ascii.eqb c double_quote
        | None => false
        end
  then String.substring 1 (String.length val - 2) val
  else val.

Section Chromedphelper.

Variable env : Env.

(** *** The [chromedp] library, as far as the code uses it *)

(** An action run by [chromedp.Run]; [S] holds the local variables of the
    caller that the action's closure writes to. *)
Definition Action (S : Type) : Type := ctx_id -> S -> M (option error * S).

(** [Tasks.Do]: the actions in order, stopping at the first error. *)
Fixpoint Tasks_Do {S} (actions : list (Action S)) (c : ctx_id) (s : S)
  : M (option error * S) :=
  match actions with
  | [] => ret (None, s)
  | a :: rest =>
      '(r, s') <- a c s ;;
      match r with
      | Some e => ret (Some e, s')
      | None => Tasks_Do rest c s'
      end
  end.

Definition chromedp_Run {S} (c : ctx_id) (actions : list (Action S)) (s : S)
  : M (option error * S) :=
  emit (RunCalled c) ;;
  r <- ask (fun h => run_start env h c) ;;
  match r with
  | Some e => ret (Some e, s)
  | None => Tasks_Do actions c s
  end.

Definition chromedp_Navigate {S} (url : string) : Action S := fun c s =>
  emit (Do c (Navigate url)) ;;
  r <- ask (fun h => do_Navigate env h c url) ;;
  ret (r, s).

Definition chromedp_Sleep {S} (d : Z) : Action S := fun c s =>
  emit (Do c (Sleep d)) ;;
  r <- ask (fun h => do_Sleep env h c d) ;;
  ret (r, s).

(** [chromedp.Evaluate(expression, &texts)] with [texts] a [[]string] *)
Definition chromedp_Evaluate_strings (expression : string)
  : Action (list string) := fun c texts =>
  emit (Do c (Evaluate expression IntoStrings false)) ;;
  r <- ask (fun h => do_Evaluate_strings env h c expression) ;;
  match r with
  | Ok v => ret (None, v)
  | Err e => ret (Some e, texts)
  end.

(** [chromedp.Evaluate(expression, &result, chromedp.EvalAsValue).Do(ctx)]
    with [result] an [interface{}] that is not read afterwards *)
Definition chromedp_Evaluate_any (expression : string) (c : ctx_id)
  : M (option error) :=
  emit (Do c (Evaluate expression IntoAny true)) ;;
  ask (fun h => do_Evaluate_any env h c expression).

(** [runtime.Evaluate(expression).WithAwaitPromise(true).Do(ctx)] *)
Definition runtime_Evaluate_await (expression : string) (c : ctx_id)
  : M (result (option string)) :=
  emit (Do c (RuntimeEvaluate expression true)) ;;
  ask (fun h => do_RuntimeEvaluate env h c expression).

(** [chromedp.FullScreenshot(&buf, quality)] *)
Definition chromedp_FullScreenshot (quality : Z) : Action (list Byte.byte) :=
  fun c buf =>
  emit (Do c (FullScreenshot quality)) ;;
  r <- ask (fun h => do_FullScreenshot env h c) ;;
  match r with
  | Ok v => ret (None, v)
  | Err e => ret (Some e, buf)
  end.

(** [page.PrintToPDF().WithPrintBackground(true).Do(ctx)] *)
Definition page_PrintToPDF_background (c : ctx_id)
  : M (result (list Byte.byte)) :=
  emit (Do c (PagePrintToPDF true)) ;;
  ask (fun h => do_PrintToPDF env h c).


Definition chromedp_ListenTarget (c : ctx_id) (fn : closure) : M unit :=
  emit (ListenTarget c fn).

(** *** [InitializeChromedp] *)

Definition InitializeChromedp (target : string) (timeout delay : Z)
  (remoteDebuggingPort jsCode : string) : M (result Browser) :=
  slog_Debug "Initializing Chrome browser"
    [("target", AString target); ("timeout", AInt timeout);
     ("delay", AInt delay); ("remotePort", AString remoteDebuggingPort);
     ("hasJSCode", ABool (negb (jsCode =? "")))] ;;
  if negb (remoteDebuggingPort =? "") then
    let remoteURL :=
      if negb (Strings.HasPrefix remoteDebuggingPort "http://")
         && negb (Strings.HasPrefix remoteDebuggingPort "https://")
      then "http://" ++ remoteDebuggingPort
      else remoteDebuggingPort in
    if negb (Strings.Contains remoteDebuggingPort ":") then
      ret (Err (Errorf
        "invalid remote debugging port format: %s (expected format: localhost:9222)"
        [AString remoteDebuggingPort]))
    else
    let parts := Strings.Split remoteDebuggingPort ":" in
    if negb (List.length parts =? 2)%nat
       || (nth 0 parts "" =? "")
       || (nth 1 parts "" =? "") then
      ret (Err (Errorf
        "invalid remote debugging port format: %s (expected format: host:port)"
        [AString remoteDebuggingPort]))
    else
    let testURL := remoteURL ++ "/json/version" in
    slog_Debug "Testing connection to remote Chrome instance"
      [("testURL", AString testURL)] ;;
    emit (HttpGet testURL (GoInt.mul 3 GoInt.Second)) ;;
    r <- ask (fun h => client_Get env h testURL) ;;
    match r with
    | Err err =>
        ret (Err (Errorf
          "failed to connect to remote debugging port %s: %w (ensure Chrome is running with --remote-debugging-port=%s)"
          [AString remoteDebuggingPort; AError err;
           AString (nth 1 (Strings.Split remoteDebuggingPort ":") "")]))
    | Ok resp =>
        match BodyClose resp with
        | Some err =>
            slog_Warn "failed to close response body" [("error", AError err)]
        | None => ret tt
        end ;;
        if negb (StatusCode resp =? 200)%Z then
          ret (Err (Errorf
            "remote debugging endpoint returned status %d at %s (ensure Chrome is running with remote debugging enabled)"
            [AInt (StatusCode resp); AString testURL]))
        else
        slog_Debug "Successfully connected to remote Chrome instance"
          [("url", AString remoteURL)] ;;
        '(allocCtx, cancelAlloc) <-
          chromedp_NewRemoteAllocator Background remoteURL ;;
        '(taskCtx, cancelTask) <- chromedp_NewContext allocCtx ;;
        '(ctx, cancelCtx) <-
          context_WithTimeout taskCtx (GoInt.seconds timeout) ;;
        slog_Debug "Remote Chrome context created successfully" [] ;;
        ret (Ok {| Ctx := ctx;
                   Cancel := (cancelCtx ;; cancelTask ;; cancelAlloc);
                   TargetURL := target;
                   Delay := delay;
                   JSCode := jsCode |})
    end
  else
    slog_Debug "Creating new headless Chrome instance" [] ;;
    '(allocCtx, cancelAlloc) <- chromedp_NewContext Background ;;
    '(ctx, cancelCtx) <-
      context_WithTimeout allocCtx (GoInt.seconds timeout) ;;
    slog_Debug "Chrome context created successfully" [] ;;
    ret (Ok {| Ctx := ctx;
               Cancel := (cancelCtx ;; cancelAlloc);
               TargetURL := target;
               Delay := delay;
               JSCode := jsCode |}).

(** *** [executeJSAction] *)

(** The action that executes the browser's JS code.  If the code contains
    'await', it is wrapped in an async IIFE and its completion awaited. *)
Definition executeJSAction {S} (b : Browser) : Action S :=
  if (JSCode b =? "") then
    fun ctx s => ret (None, s)
  else
    let jsCode := JSCode b in
    let hasAwait := Strings.Contains jsCode "await" in
    let jsCode :=
      if hasAwait then "(async () => { " ++ jsCode ++ " })();" else jsCode in
    fun ctx s =>
      slog_Debug "Executing custom JavaScript"
        [("codeLength", AInt (len (JSCode b))); ("hasAwait", ABool hasAwait)] ;;
      if hasAwait then
        r <- runtime_Evaluate_await jsCode ctx ;;
        match r with
        | Err err =>
            slog_Error "Failed to execute custom JavaScript"
              [("error", AError err)] ;;
            ret (Some (Errorf "failed to execute custom JavaScript: %w"
                         [AError err]), s)
        | Ok (Some exceptionText) =>
            slog_Error "JavaScript exception during execution"
              [("exception", AString exceptionText)] ;;
            ret (Some (Errorf "JavaScript exception: %s"
                         [AString exceptionText]), s)
        | Ok None =>
            slog_Debug "Custom JavaScript executed successfully" [] ;;
            ret (None, s)
        end
      else
        r <- chromedp_Evaluate_any jsCode ctx ;;
        match r with
        | Some err =>
            slog_Error "Failed to execute custom JavaScript"
              [("error", AError err)] ;;
            ret (Some (Errorf "failed to execute custom JavaScript: %w"
                         [AError err]), s)
        | None =>
            slog_Debug "Custom JavaScript executed successfully" [] ;;
            ret (None, s)
        end.

(** *** [NavigateAndPrepare] *)

(** Navigates to the target URL, applies delay, and executes custom JS. *)
Definition NavigateAndPrepare (b : Browser) : M (option error) :=
  slog_Debug "Navigating to target URL" [("url", AString (TargetURL b))] ;;
  '(err, _) <-
    chromedp_Run (Ctx b)
      [ chromedp_Navigate (TargetURL b);
        (fun ctx s =>
           slog_Debug "Applying rendering delay"
             [("delay", AInt (Delay b)); ("url", AString (TargetURL b))] ;;
           ret (None, s));
        chromedp_Sleep (GoInt.seconds (Delay b));
        executeJSAction b ] tt ;;
  match err with
  | Some e =>
      slog_Error "Failed to navigate and prepare page"
        [("url", AString (TargetURL b)); ("error", AError e)] ;;
      ret (Some e)
  | None =>
      slog_Debug "Navigation and preparation completed successfully" [] ;;
      ret None
  end.

(** *** The event bridge *)

(** A [for _, x := range xs] loop whose body is [body x]. *)
Fixpoint for_range {A} (xs : list A) (body : A -> M unit) : M unit :=
  match xs with
  | [] => ret tt
  | x :: rest => body x ;; for_range rest body
  end.

(** The [values] slice after the loop over [ev.Args]. *)
Definition console_values (args : list RemoteObject) : list string :=
  fold_left (fun values arg => (values ++ [trim_quotes (Value arg)])%list)
            args [].

(** The function literal passed to [chromedp.ListenTarget] by
    [SetupConsoleLogListeners]; [ctx] is the captured [b.Ctx]. *)
Definition console_listener (ctx : ctx_id) (ev : browser_event) : M unit :=
  match ev with
  | EventConsoleAPICalled type args =>
      slog_Info "Console message captured"
        [("type", AString type);
         ("value", AString (Strings.Join (console_values args) " "))]
  | EventExceptionThrown details =>
      slog_Error "JavaScript exception captured"
        [("text", AString (Text details))] ;;
      match StackTrace details with
      | Some frames =>
          for_range frames (fun frame =>
            slog_Debug "Stack trace frame"
              [("function", AString (FunctionName frame));
               ("url", AString (URL frame));
               ("line", AInt (LineNumber frame));
               ("column", AInt (ColumnNumber frame))])
      | None => ret tt
      end
  | EventJavascriptDialogOpening =>
      slog_Debug "JavaScript dialog detected, handling automatically" [] ;;
      emit (Go (AcceptDialog ctx))
  | OtherEvent _ => ret tt
  end.


(** Sets up listeners for console logs, exceptions, and dialogs. *)
Definition SetupConsoleLogListeners (b : Browser) : M unit :=
  slog_Debug "Setting up console log listeners" [] ;;
  chromedp_ListenTarget (Ctx b) (ConsoleListener (Ctx b)) ;;
  slog_Debug "Console log listeners set up successfully" [].

(** Deprecated; kept for backwards compatibility, now just calls
    [SetupConsoleLogListeners]. *)
Definition CaptureConsoleLogs (b : Browser) : M (option error) :=
  SetupConsoleLogListeners b ;;
  ret None.

(** *** The action executors *)

(** The expression [GetTextBySelector] hands to [chromedp.Evaluate]. *)
Definition selector_expression (selector : string) : string :=
  selector_prefix ++ selector ++ selector_suffix.

(** The loop that builds [result] from [texts]; [i] is the loop index. *)
Fixpoint join_texts (i : nat) (result : string) (texts : list string)
  : string :=
  match texts with
  | [] => result
  | text :: rest =>
      let result := if (0 <? i)%nat then result ++ LF else result in
      join_texts (S i) (result ++ text) rest
  end.

(** Extracts text from elements matching the given CSS selector. *)
Definition GetTextBySelector (b : Browser) (selector : string)
  : M (result string) :=
  slog_Debug "Extracting text by CSS selector"
    [("selector", AString selector)] ;;
  '(err, texts) <-
    chromedp_Run (Ctx b)
      [ chromedp_Evaluate_strings (selector_expression selector) ] [] ;;
  match err with
  | Some e =>
      slog_Error "Failed to extract text by selector"
        [("selector", AString selector); ("error", AError e)] ;;
      ret (Err e)
  | None =>
      let result := join_texts 0 "" texts in
      slog_Debug "Successfully extracted text"
        [("selector", AString selector);
         ("elementsFound", AInt (Z.of_nat (List.length texts)));
         ("totalTextLength", AInt (len result))] ;;
      ret (Ok result)
  end.

(** Extracts all visible text from the <body>. *)
Definition GetBodyText (b : Browser) : M (result string) :=
  GetTextBySelector b "body".

(** Captures a screenshot of the current page. *)
Definition TakeScreenshot (b : Browser) : M (result (list Byte.byte)) :=
  slog_Debug "Taking screenshot" [] ;;
  '(err, buf) <- chromedp_Run (Ctx b) [ chromedp_FullScreenshot 90 ] [] ;;
  match err with
  | Some e =>
      slog_Error "Failed to capture screenshot" [("error", AError e)] ;;
      ret (Err e)
  | None =>
      slog_Debug "Screenshot captured successfully"
        [("size", AInt (Z.of_nat (List.length buf)))] ;;
      ret (Ok buf)
  end.

(** Generates a PDF of the current page. *)
Definition PrintToPDF (b : Browser) : M (result (list Byte.byte)) :=
  slog_Debug "Generating PDF" [] ;;
  '(err, pdfBuf) <-
    chromedp_Run (Ctx b)
      [ fun ctx pdfBuf =>
          r <- page_PrintToPDF_background ctx ;;
          match r with
          | Ok buf => ret (None, buf)
          | Err e => ret (Some e, [])
          end ] [] ;;
  match err with
  | Some e =>
      slog_Error "Failed to generate PDF" [("error", AError e)] ;;
      ret (Err e)
  | None =>
      slog_Debug "PDF generated successfully"
        [("size", AInt (Z.of_nat (List.length pdfBuf)))] ;;
      ret (Ok pdfBuf)
  end.

End Chromedphelper.

(** ** The earlier revision of [pkg/chromedp/chromedp.go]

    The source tree also keeps the revision of the package from before
    [NavigateAndPrepare] existed (the second half of the file).  Its
    [Browser] has no delay and no script, its console capture navigates by
    itself and every executor loads the target before it acts. *)

Module Legacy.

Record Browser : Type := {
  Ctx : ctx_id;
  Cancel : M unit;
  TargetURL : string
}.

Definition selector_suffix : string :=
  "')).map(el => el.textContent.trim()).filter(text => text.length > 0)"
  ++ LF ++ TAB ++ TAB.

Definition selector_expression (selector : string) : string :=
  selector_prefix ++ selector ++ selector_suffix.

Section Chromedphelper.

Variable env : Env.

(** The function literal passed to [chromedp.ListenTarget]. *)
Definition console_listener (ctx : ctx_id) (ev : browser_event) : M unit :=
  match ev with
  | EventConsoleAPICalled type args =>
      for_range args (fun arg =>
        slog_Info "Console message captured"
          [("type", AString type); ("value", AString (Value arg))])
  | EventExceptionThrown details =>
      slog_Error "JavaScript exception captured"
        [("text", AString (Text details))] ;;
      match StackTrace details with
      | Some frames =>
          for_range frames (fun frame =>
            slog_Debug "Stack trace frame"
              [("function", AString (FunctionName frame));
               ("url", AString (URL frame));
               ("line", AInt (LineNumber frame));
               ("column", AInt (ColumnNumber frame))])
      | None => ret tt
      end
  | EventJavascriptDialogOpening =>
      slog_Debug "JavaScript dialog detected, handling automatically" [] ;;
      emit (Go (AcceptDialog ctx))
  | OtherEvent _ => ret tt
  end.

(** Starts listening for console logs, exceptions, and dialogs. *)
Definition CaptureConsoleLogs (b : Browser) : M (option error) :=
  slog_Debug "Setting up console log listeners" [] ;;
  chromedp_ListenTarget (Ctx b) (LegacyConsoleListener (Ctx b)) ;;
  slog_Debug "Navigating to target URL for console log capture"
    [("url", AString (TargetURL b))] ;;
  '(err, _) <-
    chromedp_Run env (Ctx b) [ chromedp_Navigate env (TargetURL b) ] tt ;;
  match err with
  | Some e =>
      slog_Error "Failed to navigate to target URL"
        [("url", AString (TargetURL b)); ("error", AError e)] ;;
      ret (Some e)
  | None =>
      slog_Debug "Console log capture completed" [] ;;
      ret None
  end.

Definition GetTextBySelector (b : Browser) (selector : string)
  : M (result string) :=
  slog_Debug "Extracting text by CSS selector"
    [("selector", AString selector); ("url", AString (TargetURL b))] ;;
  '(err, texts) <-
    chromedp_Run env (Ctx b)
      [ chromedp_Navigate env (TargetURL b);
        chromedp_Evaluate_strings env (selector_expression selector) ] [] ;;
  match err with
  | Some e =>
      slog_Error "Failed to extract text by selector"
        [("selector", AString selector); ("error", AError e)] ;;
      ret (Err e)
  | None =>
      let result := join_texts 0 "" texts in
      slog_Debug "Successfully extracted text"
        [("selector", AString selector);
         ("elementsFound", AInt (Z.of_nat (List.length texts)));
         ("totalTextLength", AInt (len result))] ;;
      ret (Ok result)
  end.

Definition GetBodyText (b : Browser) : M (result string) :=
  GetTextBySelector b "body".

Definition TakeScreenshot (b : Browser) : M (result (list Byte.byte)) :=
  slog_Debug "Taking screenshot" [("url", AString (TargetURL b))] ;;
  '(err, buf) <-
    chromedp_Run env (Ctx b)
      [ chromedp_Navigate env (TargetURL b);
        chromedp_FullScreenshot env 90 ] [] ;;
  match err with
  | Some e =>
      slog_Error "Failed to capture screenshot"
        [("url", AString (TargetURL b)); ("error", AError e)] ;;
      ret (Err e)
  | None =>
      slog_Debug "Screenshot captured successfully"
        [("size", AInt (Z.of_nat (List.length buf)))] ;;
      ret (Ok buf)
  end.

Definition PrintToPDF (b : Browser) : M (result (list Byte.byte)) :=
  slog_Debug "Generating PDF" [("url", AString (TargetURL b))] ;;
  '(err, pdfBuf) <-
    chromedp_Run env (Ctx b)
      [ chromedp_Navigate env (TargetURL b);
        fun ctx pdfBuf =>
          r <- page_PrintToPDF_background env ctx ;;
          match r with
          | Ok buf => ret (None, buf)
          | Err e => ret (Some e, [])
          end ] [] ;;
  match err with
  | Some e =>
      slog_Error "Failed to generate PDF"
        [("url", AString (TargetURL b)); ("error", AError e)] ;;
      ret (Err e)
  | None =>
      slog_Debug "PDF generated successfully"
        [("size", AInt (Z.of_nat (List.length pdfBuf)))] ;;
      ret (Ok pdfBuf)
  end.

End Chromedphelper.

End Legacy.

(** ** [main.go]: package [main] *)

Module Main.

Record Config : Type := {
  ConsoleLog : bool;
  Screenshot : bool;
  PrintToPDF : bool;
  GetBody : bool;
  GetTextByCssSelector : string;
  Timeout : Z;
  Delay : Z;
  Target : string;
  LogLevel : string;
  RemoteDebuggingPort : string
}.

(** [cfg.Target = target] *)
Definition set_Target (cfg : Config) (target : string) : Config :=
  {| ConsoleLog := ConsoleLog cfg; Screenshot := Screenshot cfg;
     PrintToPDF := PrintToPDF cfg; GetBody := GetBody cfg;
     GetTextByCssSelector := GetTextByCssSelector cfg;
     Timeout := Timeout cfg; Delay := Delay cfg; Target := target;
     LogLevel := LogLevel cfg;
     RemoteDebuggingPort := RemoteDebuggingPort cfg |}.

(** [cfg.Timeout = timeout] *)
Definition set_Timeout (cfg : Config) (timeout : Z) : Config :=
  {| ConsoleLog := ConsoleLog cfg; Screenshot := Screenshot cfg;
     PrintToPDF := PrintToPDF cfg; GetBody := GetBody cfg;
     GetTextByCssSelector := GetTextByCssSelector cfg;
     Timeout := timeout; Delay := Delay cfg; Target := Target cfg;
     LogLevel := LogLevel cfg;
     RemoteDebuggingPort := RemoteDebuggingPort cfg |}.

(** The record logged when the timeout is raised (lines 171-174). *)
Definition timeout_adjusted_record (originalTimeout delay newTimeout : Z)
  : event :=
  Log LevelInfo "Timeout automatically adjusted to accommodate delay"
    [("originalTimeout", AInt originalTimeout); ("delay", AInt delay);
     ("newTimeout", AInt newTimeout)].

Section RunThatCliWebBrowser.

Variable env : Env.

(** The package API [main.go] is compiled against: establishing a session
    from (target, timeout, delay, remote endpoint)... *)
Variable InitializeChromedp :
  string -> Z -> Z -> string -> M (result Browser).

(** ...and lines 196-268, the requested actions run one after another on
    the established session. *)
Variable handle_actions : Config -> Browser -> M (option error).

(** Lines 95-107: the level named by [--loglevel]. *)
Definition log_level (cfg : Config) : Level :=
  let l := strings_ToLower env (LogLevel cfg) in
  if l =? "debug" then LevelDebug
  else if l =? "info" then LevelInfo
  else if (l =? "warn") || (l =? "warning") then LevelWarn
  else if l =? "error" then LevelError
  else LevelInfo.

(** Lines 124-155: the target address of the invocation. *)
Definition resolve_target (args : list string) : M (result string) :=
  match args with
  | [] =>
      slog_Error "No target URL or file path provided" [] ;;
      ret (Err (Errorf "target URL or file path is required" []))
  | input :: _ =>
      slog_Debug "Processing input" [("input", AString input)] ;;
      if strings_TrimSpace env input =? "" then
        slog_Error "Empty target provided" [] ;;
        ret (Err (Errorf "target cannot be empty" []))
      else
      emit (OsStat input) ;;
      st <- ask (fun h => os_Stat env h input) ;;
      match st with
      | None =>
          r <- ask (fun h => filepath_Abs env h input) ;;
          match r with
          | Err err =>
              slog_Error "Failed to get absolute path"
                [("input", AString input); ("error", AError err)] ;;
              ret (Err (Errorf "failed to get absolute path for %q: %w"
                          [AString input; AError err]))
          | Ok abs =>
              slog_Debug "Input detected as local file"
                [("absolutePath", AString abs)] ;;
              ret (Ok ("file://" ++ abs))
          end
      | Some _ =>
          when (negb (Strings.HasPrefix input "http://")
                && negb (Strings.HasPrefix input "https://")
                && negb (Strings.HasPrefix input "file://"))
            (slog_Warn
               "Input does not appear to be a valid URL, treating as URL anyway"
               [("input", AString input)]) ;;
          slog_Debug "Input treated as URL" [("url", AString input)] ;;
          ret (Ok input)
      end
  end.

(** Lines 158-181: the delay is validated, the timeout adjusted to it, and
    the request checked to name an action.  The configuration handed back
    is the global [cfg] as these lines leave it: the one the session is
    established with when no error is returned. *)
Definition validate_config (cfg : Config) : M (Config * option error) :=
  if (Delay cfg <? 0)%Z then
    slog_Error "Invalid delay value" [("delay", AInt (Delay cfg))] ;;
    ret (cfg, Some (Errorf "delay cannot be negative: %d"
                      [AInt (Delay cfg)]))
  else
  when (60 <? Delay cfg)%Z
    (slog_Warn "Large delay value specified" [("delay", AInt (Delay cfg))]) ;;
  cfg <-
    (if (Timeout cfg <=? GoInt.add (Delay cfg) 10)%Z then
       let originalTimeout := Timeout cfg in
       let cfg := set_Timeout cfg (GoInt.add (Delay cfg) 10) in
       emit (timeout_adjusted_record originalTimeout (Delay cfg)
               (Timeout cfg)) ;;
       ret cfg
     else ret cfg) ;;
  if negb (ConsoleLog cfg) && negb (Screenshot cfg) && negb (PrintToPDF cfg)
     && negb (GetBody cfg) && (GetTextByCssSelector cfg =? "") then
    slog_Error "No action specified" [] ;;
    ret (cfg, Some (Errorf
      "at least one action must be specified (--body, --screenshot, --printtopdf, --consolelog, or --gettextbycssselector)"
      []))
  else ret (cfg, None).

(** [runThatCliWebBrowser]; the global [cfg] is passed in and handed back.
    [defer browser.Cancel()] runs when the function returns. *)
Definition runThatCliWebBrowser (cfg : Config) (args : list string)
  : M (Config * option error) :=
  emit (SetDefaultLogger (log_level cfg)) ;;
  slog_Debug "Starting that-cli-web-toolbox"
    [("timeout", AInt (Timeout cfg)); ("delay", AInt (Delay cfg));
     ("logLevel", AString (LogLevel cfg));
     ("consoleLog", ABool (ConsoleLog cfg));
     ("screenshot", ABool (Screenshot cfg));
     ("printToPDF", ABool (PrintToPDF cfg));
     ("getBody", ABool (GetBody cfg));
     ("cssSelector", AString (GetTextByCssSelector cfg))] ;;
  r <- resolve_target args ;;
  match r with
  | Err e => ret (cfg, Some e)
  | Ok target =>
      let cfg := set_Target cfg target in
      '(cfg, err) <- validate_config cfg ;;
      match err with
      | Some e => ret (cfg, Some e)
      | None =>
          (if RemoteDebuggingPort cfg =? "" then
             slog_Debug "Initializing new browser"
               [("target", AString (Target cfg));
                ("timeout", AInt (Timeout cfg)); ("delay", AInt (Delay cfg))]
           else
             slog_Debug "Connecting to existing browser"
               [("target", AString (Target cfg));
                ("timeout", AInt (Timeout cfg)); ("delay", AInt (Delay cfg));
                ("remotePort", AString (RemoteDebuggingPort cfg))]) ;;
          r <- InitializeChromedp (Target cfg) (Timeout cfg) (Delay cfg)
                 (RemoteDebuggingPort cfg) ;;
          match r with
          | Err err =>
              slog_Error "Failed to initialize browser"
                [("error", AError err)] ;;
              ret (cfg, Some (Errorf "failed to initialize browser: %w"
                                [AError err]))
          | Ok browser =>
              res <- handle_actions cfg browser ;;
              Cancel browser ;;
              ret (cfg, res)
          end
      end
  end.

End RunThatCliWebBrowser.

End Main.

(** ** Reading traces *)

(** The browser commands of a trace, with the context each ran on. *)
Fixpoint commands_of (l : list event) : list (ctx_id * command) :=
  match l with
  | [] => []
  | Do c cmd :: rest => (c, cmd) :: commands_of rest
  | _ :: rest => commands_of rest
  end.

Definition is_navigation (cmd : command) : bool :=
  match cmd with Navigate _ => true | _ => false end.

Definition is_http_get (e : event) : bool :=
  match e with HttpGet _ _ => true | _ => false end.

Definition is_log (e : event) : bool :=
  match e with Log _ _ _ => true | _ => false end.

(** A computation that only ever adds to the trace. *)
Definition appends {A} (m : M A) : Prop :=
  forall w, exists l, trace (snd (m w)) = (trace w ++ l)%list.

(** ** The script of [GetTextBySelector], read as JavaScript

    [Array.from(document.querySelectorAll(sel)).map(el =>
    el.innerText.trim()).filter(text => text.length > 0)] over a page whose
    DOM answers [querySelectorAll] with the matching elements in document
    order (or throws on a selector it cannot parse).  [innerText] and
    [String.prototype.trim] are the runtime's. *)

Section SelectorScript.

Variable Element : Type.
Variable innerText : Element -> string.
Variable js_trim : string -> string.
Variable querySelectorAll : string -> result (list Element).


End SelectorScript.

(** What follows the closing quote of the selector in the script. *)
Definition selector_suffix_tail : string :=
  ")).map(el => el.innerText.trim()).filter(text => text.length > 0)"
  ++ LF ++ TAB ++ TAB.

(** The source text of a single-quoted JavaScript string literal, read from
    just behind its opening quote: the characters up to the first quote
    that is not escaped, and the script text that follows it.  A line end
    or the end of the script inside the literal is a syntax error. *)
Fixpoint scan_single_quoted (s : string) : option (string * string) :=
  match s with
  | EmptyString => None
  | String c rest =>
      if Ascii.eqb c single_quote then Some (EmptyString, rest)
      else if Ascii.eqb c backslash then
        match rest with
        | EmptyString => None
        | String d rest' =>
            match scan_single_quoted rest' with
            | Some (body, tail) => Some (String c (String d body), tail)
            | None => None
            end
        end
      else if Ascii.eqb c "010"%char || Ascii.eqb c "013"%char then None
      else
        match scan_single_quoted rest with
        | Some (body, tail) => Some (String c body, tail)
        | None => None
        end
  end.


(** ** Vocabulary of the statements about the pipeline and the executors *)

(** The four action executors. *)
Inductive executor : Type :=
| FullPageScreenshot
| PDFRendering
| TextBySelector (selector : string)
| BodyText.

Definition error_of {A} (r : result A) : option error :=
  match r with Ok _ => None | Err e => Some e end.

(** Calling an executor on a session; only its error is kept. *)
Definition run_executor (env : Env) (x : executor) (b : Browser)
  : M (option error) :=
  match x with
  | FullPageScreenshot => r <- TakeScreenshot env b ;; ret (error_of r)
  | PDFRendering => r <- PrintToPDF env b ;; ret (error_of r)
  | TextBySelector selector =>
      r <- GetTextBySelector env b selector ;; ret (error_of r)
  | BodyText => r <- GetBodyText env b ;; ret (error_of r)
  end.

(** The one browser command an executor is there to issue. *)
Definition executor_command (x : executor) : command :=
  match x with
  | FullPageScreenshot => FullScreenshot 90
  | PDFRendering => PagePrintToPDF true
  | TextBySelector selector =>
      Evaluate (selector_expression selector) IntoStrings false
  | BodyText => Evaluate (selector_expression "body") IntoStrings false
  end.

(** The same for the earlier revision of the package. *)
Definition run_legacy_executor (env : Env) (x : executor) (b : Legacy.Browser)
  : M (option error) :=
  match x with
  | FullPageScreenshot => r <- Legacy.TakeScreenshot env b ;; ret (error_of r)
  | PDFRendering => r <- Legacy.PrintToPDF env b ;; ret (error_of r)
  | TextBySelector selector =>
      r <- Legacy.GetTextBySelector env b selector ;; ret (error_of r)
  | BodyText => r <- Legacy.GetBodyText env b ;; ret (error_of r)
  end.

(** The script as it is sent when it contains 'await'. *)
Definition async_wrapped (script : string) : string :=
  "(async () => { " ++ script ++ " })();".

(** The browser commands of the script-injection step on context [ctx]. *)
Definition script_commands (b : Browser) (ctx : ctx_id)
  : list (ctx_id * command) :=
  if JSCode b =? "" then []
  else if Strings.Contains (JSCode b) "await"
       then [(ctx, RuntimeEvaluate (async_wrapped (JSCode b)) true)]
       else [(ctx, Evaluate (JSCode b) IntoAny true)].


(** ** Vocabulary of the statements about remote endpoints *)

(** [host:port]: exactly one [':'], between two components that are not
    empty. *)
Definition host_port (s : string) : Prop :=
  exists host port,
    s = host ++ ":" ++ port
    /\ host <> "" /\ port <> ""
    /\ Strings.Contains host ":" = false
    /\ Strings.Contains port ":" = false.

(** Both format checks of [InitializeChromedp] (lines 42 and 48) pass. *)
Definition endpoint_format_ok (s : string) : bool :=
  Strings.Contains s ":"
  && let parts := Strings.Split s ":" in
     (List.length parts =? 2)%nat
     && negb (nth 0 parts "" =? "") && negb (nth 1 parts "" =? "").

(** One of the two format errors, naming the bad input. *)
Definition is_format_error (endpoint : string) (e : error) : Prop :=
  exists format,
    e = Errorf format [AString endpoint]
    /\ Strings.HasPrefix format "invalid remote debugging port format: %s"
       = true.

(** ** Vocabulary of the statements about [main.go] *)

(** The request names at least one action (the negation of the test of
    line 178). *)
Definition requests_action (cfg : Main.Config) : bool :=
  Main.ConsoleLog cfg || Main.Screenshot cfg || Main.PrintToPDF cfg
  || Main.GetBody cfg || negb (Main.GetTextByCssSelector cfg =? "").


(** ** A test double for concrete runs

    Every external call succeeds; the remote probe answers 200, scripts
    return no texts and captures return no bytes. *)
Definition ok_env : Env := {|
  strings_ToLower := fun s => s;
  strings_TrimSpace := fun s => s;
  os_Stat := fun _ _ => Some (ExternalError "no such file or directory");
  filepath_Abs := fun _ path => Ok path;
  client_Get := fun _ _ => Ok {| StatusCode := 200; BodyClose := None |};
  run_start := fun _ _ => None;
  do_Navigate := fun _ _ _ => None;
  do_Sleep := fun _ _ _ => None;
  do_Evaluate_strings := fun _ _ _ => Ok [];
  do_Evaluate_any := fun _ _ _ => None;
  do_RuntimeEvaluate := fun _ _ _ => Ok None;
  do_FullScreenshot := fun _ _ => Ok [];
  do_PrintToPDF := fun _ _ => Ok [];
  do_HandleJavaScriptDialog := fun _ _ => None
|}.

Definition empty_world : World := {| trace := []; contexts := 0 |}.

(** A session on context 1 with the given script, for concrete runs. *)
Definition session_with_script (script : string) : Browser := {|
  Ctx := 1%nat;
  Cancel := ret tt;
  TargetURL := "https://example.com";
  Delay := 2;
  JSCode := script
|}.


(** The session the test double's remote browser gives, and the one a
    local browser gives. *)
Definition established (endpoint : string) : result Browser * World :=
  InitializeChromedp ok_env "https://example.com" 10 2 endpoint ""
    empty_world.

Definition session_of (r : result Browser * World) : Browser :=
  match fst r with
  | Ok b => b
  | Err _ => session_with_script ""
  end.

(** A screenshot request with the given timeout and delay. *)
Definition screenshot_cfg (timeout delay : Z) : Main.Config := {|
  Main.ConsoleLog := false;
  Main.Screenshot := true;
  Main.PrintToPDF := false;
  Main.GetBody := false;
  Main.GetTextByCssSelector := "";
  Main.Timeout := timeout;
  Main.Delay := delay;
  Main.Target := "https://example.com";
  Main.LogLevel := "info";
  Main.RemoteDebuggingPort := ""
|}.

(** ** [main.go], lines 196-268: the requested actions

    The second half of [runThatCliWebBrowser] calls the methods of the
    session for the actions the request names, prints texts and file names
    on standard output and writes the captures to files. *)

(** What the function hands to the process's outputs: a text written to
    standard output, or a call of [os.WriteFile]. *)
Inductive output : Type :=
| Printed (text : string)
| WriteFileCalled (name : string) (data : list Byte.byte) (perm : Z).

(** The clock and the file system. *)
Record Host : Type := {
  (* time.Now().Format(layout) *)
  time_Now_Format : list event -> string -> string;
  (* the error of os.WriteFile(name, data, perm) *)
  os_WriteFile : list event -> string -> list Byte.byte -> Z -> option error
}.

(** The methods of [*chromedphelper.Browser] that [main.go] calls. *)
Record Package : Type := {
  api_GetTextBySelector : Browser -> string -> M (result string);
  api_GetBodyText : Browser -> M (result string);
  api_CaptureConsoleLogs : Browser -> M (option error);
  api_TakeScreenshot : Browser -> M (result (list Byte.byte));
  api_PrintToPDF : Browser -> M (result (list Byte.byte))
}.

(** The package as its current revision implements it. *)
Definition chromedphelper_package (env : Env) : Package := {|
  api_GetTextBySelector := GetTextBySelector env;
  api_GetBodyText := GetBodyText env;
  api_CaptureConsoleLogs := CaptureConsoleLogs;
  api_TakeScreenshot := TakeScreenshot env;
  api_PrintToPDF := PrintToPDF env
|}.

(** One [if] statement of the function: what it wrote, and the error it
    returned with, if it did. *)
Definition Block : Type := M (list output * option error).

(** Statements in sequence: the second runs unless the first returned. *)
Definition and_then (first second : Block) : Block :=
  '(out1, err) <- first ;;
  match err with
  | Some e => ret (out1, Some e)
  | None => '(out2, err2) <- second ;; ret ((out1 ++ out2)%list, err2)
  end.

(** [fmt.Println(text)] *)
Definition fmt_Println (text : string) : output := Printed (text ++ LF).

(** [0o644] *)
Definition perm_0o644 : Z := 420.

Section HandleActions.

Variable host : Host.
Variable pkg : Package.

(** Lines 197-206 *)
Definition text_block (cfg : Main.Config) (browser : Browser) : Block :=
  if negb (Main.GetTextByCssSelector cfg =? "") then
    slog_Debug "Getting text by CSS selector"
      [("selector", AString (Main.GetTextByCssSelector cfg))] ;;
    r <- api_GetTextBySelector pkg browser (Main.GetTextByCssSelector cfg) ;;
    match r with
    | Err err =>
        slog_Error "Failed to get text by selector"
          [("selector", AString (Main.GetTextByCssSelector cfg));
           ("error", AError err)] ;;
        ret ([], Some (Errorf "failed to get text by selector: %w"
                         [AError err]))
    | Ok text =>
        slog_Debug "Successfully extracted text"
          [("selector", AString (Main.GetTextByCssSelector cfg));
           ("textLength", AInt (len text))] ;;
        ret ([fmt_Println text], None)
    end
  else ret ([], None).

(** Lines 209-218 *)
Definition body_block (cfg : Main.Config) (browser : Browser) : Block :=
  if Main.GetBody cfg then
    slog_Info "Getting body text" [] ;;
    r <- api_GetBodyText pkg browser ;;
    match r with
    | Err err =>
        slog_Error "Failed to get body text" [("error", AError err)] ;;
        ret ([], Some (Errorf "failed to get body text: %w" [AError err]))
    | Ok text =>
        slog_Debug "Successfully extracted body text"
          [("textLength", AInt (len text))] ;;
        ret ([fmt_Println text], None)
    end
  else ret ([], None).

(** Lines 221-227 *)
Definition console_block (cfg : Main.Config) (browser : Browser) : Block :=
  if Main.ConsoleLog cfg then
    slog_Info "Starting console log capture" [] ;;
    r <- api_CaptureConsoleLogs pkg browser ;;
    match r with
    | Some err =>
        slog_Error "Failed to capture console logs" [("error", AError err)] ;;
        ret ([], Some (Errorf "failed to capture console logs: %w"
                         [AError err]))
    | None => ret ([], None)
    end
  else ret ([], None).

(** The tail shared by lines 238-245 and 257-264: the capture is written
    to a file named after the time, and the name is printed. *)
Definition save_capture (fileName : string) (data : list Byte.byte)
  (saving failed saved : string) (failure announce : string) : Block :=
  slog_Debug saving
    [("fileName", AString fileName);
     ("size", AInt (Z.of_nat (List.length data)))] ;;
  w <- ask (fun h => os_WriteFile host h fileName data perm_0o644) ;;
  match w with
  | Some err =>
      slog_Error failed
        [("fileName", AString fileName); ("error", AError err)] ;;
      ret ([WriteFileCalled fileName data perm_0o644],
           Some (Errorf failure [AString fileName; AError err]))
  | None =>
      slog_Info saved [("fileName", AString fileName)] ;;
      ret ([WriteFileCalled fileName data perm_0o644;
            Printed (announce ++ fileName ++ LF)], None)
  end.

(** Lines 230-246 *)
Definition screenshot_block (cfg : Main.Config) (browser : Browser) : Block :=
  if Main.Screenshot cfg then
    slog_Info "Taking screenshot" [] ;;
    r <- api_TakeScreenshot pkg browser ;;
    match r with
    | Err err =>
        slog_Error "Failed to take screenshot" [("error", AError err)] ;;
        ret ([], Some (Errorf "failed to take screenshot: %w" [AError err]))
    | Ok imageBuf =>
        now <- ask (fun h => time_Now_Format host h "20060102150405") ;;
        save_capture ("screenshot_" ++ now ++ ".png") imageBuf
          "Saving screenshot" "Failed to save screenshot"
          "Screenshot saved successfully"
          "failed to save screenshot %q: %w" "Screenshot saved as "
    end
  else ret ([], None).

(** Lines 249-265 *)
Definition pdf_block (cfg : Main.Config) (browser : Browser) : Block :=
  if Main.PrintToPDF cfg then
    slog_Info "Printing to PDF" [] ;;
    r <- api_PrintToPDF pkg browser ;;
    match r with
    | Err err =>
        slog_Error "Failed to print to PDF" [("error", AError err)] ;;
        ret ([], Some (Errorf "failed to print to PDF: %w" [AError err]))
    | Ok pdfBuf =>
        now <- ask (fun h => time_Now_Format host h "20060102150405") ;;
        save_capture ("page_" ++ now ++ ".pdf") pdfBuf
          "Saving PDF" "Failed to save PDF" "PDF saved successfully"
          "failed to save PDF %q: %w" "PDF saved as "
    end
  else ret ([], None).

(** Lines 196-268 *)
Definition handle_actions (cfg : Main.Config) (browser : Browser) : Block :=
  and_then (text_block cfg browser)
    (and_then (body_block cfg browser)
       (and_then (console_block cfg browser)
          (and_then (screenshot_block cfg browser)
             (and_then (pdf_block cfg browser)
                (slog_Debug "Command execution completed successfully" [] ;;
                 ret ([], None)))))).

End HandleActions.

(** ** Vocabulary of the further statements *)

(** Lines 36-39 of [InitializeChromedp]: the endpoint with a scheme. *)
Definition remote_url (endpoint : string) : string :=
  if negb (Strings.HasPrefix endpoint "http://")
     && negb (Strings.HasPrefix endpoint "https://")
  then "http://" ++ endpoint
  else endpoint.

(** An event that creates a context. *)
Definition is_context_event (e : event) : bool :=
  match e with
  | NewRemoteAllocator _ _ _ | NewContext _ _ | WithTimeout _ _ _ => true
  | _ => false
  end.

Definition is_run_called (e : event) : bool :=
  match e with RunCalled _ => true | _ => false end.

(** The debug record of one stack frame. *)
Definition frame_record (frame : CallFrame) : event :=
  Log LevelDebug "Stack trace frame"
    [("function", AString (FunctionName frame));
     ("url", AString (URL frame));
     ("line", AInt (LineNumber frame));
     ("column", AInt (ColumnNumber frame))].

(** The sum of the lengths of some texts. *)
Definition total_length (texts : list string) : Z :=
  fold_right (fun t n => len t + n) 0 texts.

(** A request for all five actions. *)
Definition all_actions_cfg (selector : string) : Main.Config := {|
  Main.ConsoleLog := true;
  Main.Screenshot := true;
  Main.PrintToPDF := true;
  Main.GetBody := true;
  Main.GetTextByCssSelector := selector;
  Main.Timeout := 12;
  Main.Delay := 2;
  Main.Target := "https://example.com";
  Main.LogLevel := "info";
  Main.RemoteDebuggingPort := ""
|}.

(** A clock that stands still and a file system that accepts every
    file. *)
Definition ok_host : Host := {|
  time_Now_Format := fun _ _ => "20260102150405";
  os_WriteFile := fun _ _ _ _ => None
|}.

(** The same with a file system that refuses every file. *)
Definition full_disk_host : Host := {|
  time_Now_Format := fun _ _ => "20260102150405";
  os_WriteFile := fun _ _ _ _ => Some (ExternalError "no space left on device")
|}.

(** The test double with a browser that cannot load the target. *)
Definition env_unreachable : Env := {|
  strings_ToLower := strings_ToLower ok_env;
  strings_TrimSpace := strings_TrimSpace ok_env;
  os_Stat := os_Stat ok_env;
  filepath_Abs := filepath_Abs ok_env;
  client_Get := fun _ _ => Err (ExternalError "connection refused");
  run_start := run_start ok_env;
  do_Navigate := fun _ _ _ => Some (ExternalError "net::ERR_NAME_NOT_RESOLVED");
  do_Sleep := do_Sleep ok_env;
  do_Evaluate_strings := do_Evaluate_strings ok_env;
  do_Evaluate_any := fun _ _ _ => Some (ExternalError "ReferenceError");
  do_RuntimeEvaluate := fun _ _ _ => Ok (Some "Uncaught (in promise) boom");
  do_FullScreenshot := do_FullScreenshot ok_env;
  do_PrintToPDF := do_PrintToPDF ok_env;
  do_HandleJavaScriptDialog := do_HandleJavaScriptDialog ok_env
|}.

(** The test double with a session whose deadline has passed. *)
Definition env_expired : Env := {|
  strings_ToLower := strings_ToLower ok_env;
  strings_TrimSpace := strings_TrimSpace ok_env;
  os_Stat := os_Stat ok_env;
  filepath_Abs := filepath_Abs ok_env;
  client_Get := client_Get ok_env;
  run_start := fun _ _ => Some (ExternalError "context deadline exceeded");
  do_Navigate := do_Navigate ok_env;
  do_Sleep := do_Sleep ok_env;
  do_Evaluate_strings := do_Evaluate_strings ok_env;
  do_Evaluate_any := do_Evaluate_any ok_env;
  do_RuntimeEvaluate := do_RuntimeEvaluate ok_env;
  do_FullScreenshot := do_FullScreenshot ok_env;
  do_PrintToPDF := do_PrintToPDF ok_env;
  do_HandleJavaScriptDialog := do_HandleJavaScriptDialog ok_env
|}.

(** The test double with a local file behind every path. *)
Definition env_with_files : Env := {|
  strings_ToLower := strings_ToLower ok_env;
  strings_TrimSpace := strings_TrimSpace ok_env;
  os_Stat := fun _ _ => None;
  filepath_Abs := fun _ path => Ok ("/work/" ++ path);
  client_Get := client_Get ok_env;
  run_start := run_start ok_env;
  do_Navigate := do_Navigate ok_env;
  do_Sleep := do_Sleep ok_env;
  do_Evaluate_strings := do_Evaluate_strings ok_env;
  do_Evaluate_any := do_Evaluate_any ok_env;
  do_RuntimeEvaluate := do_RuntimeEvaluate ok_env;
  do_FullScreenshot := do_FullScreenshot ok_env;
  do_PrintToPDF := do_PrintToPDF ok_env;
  do_HandleJavaScriptDialog := do_HandleJavaScriptDialog ok_env
|}.

(** * Properties *)

(** ** Go integers *)

Lemma wrap_in_range (z : Z) : GoInt.in_range z -> GoInt.wrap z = z.
Proof.
  unfold GoInt.in_range, GoInt.wrap, GoInt.MinInt, GoInt.MaxInt.
  intros H. rewrite Z.mod_small; lia.
Qed.

Lemma wrap_range (z : Z) : GoInt.in_range (GoInt.wrap z).
Proof.
  unfold GoInt.in_range, GoInt.wrap, GoInt.MinInt, GoInt.MaxInt.
  pose proof (Z.mod_pos_bound (z - - 2 ^ 63) (2 ^ 64)). lia.
Qed.

(** [delay + 10] does not overflow for a delay of at most [MaxInt - 10]. *)
Lemma add_10_exact (delay : Z) :
  0 <= delay <= GoInt.MaxInt - 10 -> GoInt.add delay 10 = delay + 10.
Proof.
  intros H. unfold GoInt.add. apply wrap_in_range.
  unfold GoInt.in_range, GoInt.MinInt, GoInt.MaxInt in *. lia.
Qed.

(** [time.Duration(n) * time.Second] is [n] seconds for every [n] up to
    about 292 years. *)
Lemma seconds_exact (n : Z) :
  0 <= n <= 9223372036 -> GoInt.seconds n = n * 1000000000.
Proof.
  intros H. unfold GoInt.seconds, GoInt.mul, GoInt.Second.
  apply wrap_in_range.
  unfold GoInt.in_range, GoInt.MinInt, GoInt.MaxInt. lia.
Qed.

(** ** Strings *)

Example Contains_await_inside_word :
  Strings.Contains "x = awaiting" "await" = true.
Proof. reflexivity. Qed.

Example Contains_is_case_sensitive :
  Strings.Contains "Await f(); AWAIT g()" "await" = false.
Proof. reflexivity. Qed.

Example Split_host_port :
  Strings.Split "localhost:9222" ":" = ["localhost"; "9222"].
Proof. reflexivity. Qed.

Example Split_empty_port : Strings.Split "localhost:" ":" = ["localhost"; ""].
Proof. reflexivity. Qed.

Example Split_scheme :
  Strings.Split "http://localhost:9222" ":" = ["http"; "//localhost"; "9222"].
Proof. reflexivity. Qed.

Example Split_long_separator :
  Strings.Split "a::b:::c" "::" = ["a"; "b"; ":c"].
Proof. reflexivity. Qed.

Lemma append_nil_r (s : string) : s ++ "" = s.
Proof. induction s as [|a s IH]; simpl; [reflexivity | now rewrite IH]. Qed.

Lemma append_assoc (a b c : string) : (a ++ b) ++ c = a ++ (b ++ c).
Proof. induction a as [|x a IH]; simpl; [reflexivity | now rewrite IH]. Qed.

Lemma length_append (a b : string) :
  String.length (a ++ b) = (String.length a + String.length b)%nat.
Proof. induction a as [|x a IH]; simpl; [reflexivity | now rewrite IH]. Qed.

Lemma prefix_nil (s : string) : String.prefix "" s = true.
Proof. destruct s; reflexivity. Qed.

Lemma prefix_cons (a b : ascii) (p s : string) :
  String.prefix (String a p) (String b s)
  = if Ascii.eqb a b then String.prefix p s else false.
Proof.
  simpl. destruct (ascii_dec a b) as [->|Hne].
  - now rewrite Ascii.eqb_refl.
  - apply Ascii.eqb_neq in Hne. now rewrite Hne.
Qed.

(** [prefix p s] holds exactly when [s] starts with [p]. *)
Lemma prefix_spec (p s : string) :
  String.prefix p s = true <-> exists r, s = p ++ r.
Proof.
  revert s. induction p as [|a p IH]; intros s.
  - rewrite prefix_nil. split; [exists s | ]; reflexivity.
  - destruct s as [|b s].
    + simpl. split; [discriminate | intros [r Hr]; discriminate].
    + rewrite prefix_cons. destruct (Ascii.eqb_spec a b) as [->|Hne].
      * rewrite IH. split; intros [r Hr]; exists r.
        -- simpl. now rewrite Hr.
        -- simpl in Hr. now inversion Hr.
      * split; [discriminate | intros [r Hr]]. simpl in Hr.
        inversion Hr. congruence.
Qed.

(** [strings.Contains] is the substring test. *)
Lemma Contains_spec (s sub : string) :
  Strings.Contains s sub = true <-> exists a b, s = a ++ sub ++ b.
Proof.
  induction s as [|c s IH].
  - cbn [Strings.Contains]. rewrite orb_false_r, prefix_spec. split.
    + intros [r Hr]. exists "", r. exact Hr.
    + intros [a [b H]]. destruct a; [exists b; exact H | discriminate].
  - cbn [Strings.Contains]. rewrite orb_true_iff, prefix_spec, IH. split.
    + intros [[r Hr] | [a [b H]]].
      * exists "", r. exact Hr.
      * exists (String c a), b. simpl. now rewrite H.
    + intros [a [b H]]. destruct a as [|x a].
      * left. exists b. exact H.
      * right. simpl in H. inversion H. exists a, b. reflexivity.
Qed.

(** Every string that is not empty ends in a last character. *)
Lemma string_snoc (c : ascii) (s : string) :
  exists m d, String c s = m ++ String d "".
Proof.
  revert c. induction s as [|x s IH]; intros c.
  - exists "", c. reflexivity.
  - destruct (IH x) as [m [d H]]. exists (String c m), d.
    simpl. now rewrite H.
Qed.

Lemma get_last (m : string) (d : ascii) :
  String.get (String.length m) (m ++ String d "") = Some d.
Proof. induction m as [|x m IH]; simpl; [reflexivity | exact IH]. Qed.

Lemma substring_all_but_last (m : string) (d : ascii) :
  String.substring 0 (String.length m) (m ++ String d "") = m.
Proof. induction m as [|x m IH]; simpl; [reflexivity | now rewrite IH]. Qed.

(** [trim_quotes] on a string given by its first character, its middle
    and its last character. *)
Lemma trim_quotes_first_last (a d : ascii) (m : string) :
  trim_quotes (String a (m ++ String d ""))
  = if Ascii.eqb a double_quote && Ascii.eqb d double_quote
    then m else String a (m ++ String d "").
Proof.
  unfold trim_quotes, len.
  assert (Hlen : String.length (String a (m ++ String d ""))
                 = S (S (String.length m))).
  { simpl. rewrite length_append. simpl. lia. }
  rewrite Hlen.
  replace (2 <=? Z.of_nat (S (S (String.length m))))%Z with true
    by (symmetry; apply Z.leb_le; lia).
  replace (S (S (String.length m)) - 1)%nat with (S (String.length m)) by lia.
  replace (S (S (String.length m)) - 2)%nat with (String.length m) by lia.
  cbn [String.get String.substring andb].
  rewrite get_last, substring_all_but_last.
  reflexivity.
Qed.

(** A value shorter than two bytes is left as it is. *)
Lemma trim_quotes_short (val : string) :
  (String.length val < 2)%nat -> trim_quotes val = val.
Proof.
  intros H. unfold trim_quotes, len.
  replace (2 <=? Z.of_nat (String.length val))%Z with false
    by (symmetry; apply Z.leb_gt; lia).
  reflexivity.
Qed.

(** The surrounding quotes are stripped from a quoted string... *)
Lemma trim_quotes_quoted (m : string) :
  trim_quotes (String double_quote (m ++ String double_quote "")) = m.
Proof. rewrite trim_quotes_first_last. reflexivity. Qed.

(** ...and every other value is left as it is. *)
Lemma trim_quotes_other (val : string) :
  (forall m, val <> String double_quote (m ++ String double_quote "")) ->
  trim_quotes val = val.
Proof.
  intros H. destruct val as [|a [|b s]];
    try (apply trim_quotes_short; simpl; lia).
  destruct (string_snoc b s) as [m [d Hm]]. rewrite Hm in *.
  rewrite trim_quotes_first_last.
  destruct (Ascii.eqb_spec a double_quote) as [->|]; [|reflexivity].
  destruct (Ascii.eqb_spec d double_quote) as [->|]; [|reflexivity].
  exfalso. apply (H m). reflexivity.
Qed.

(** The loop of [GetTextBySelector] joins the texts with newlines. *)
Lemma join_texts_from (i : nat) (acc t : string) (ts : list string) :
  join_texts (S i) acc (t :: ts) = acc ++ LF ++ String.concat LF (t :: ts).
Proof.
  revert i acc t. induction ts as [|t' ts IH]; intros i acc t.
  - cbn [join_texts String.concat].
    replace (0 <? S i)%nat with true by reflexivity.
    apply append_assoc.
  - change (join_texts (S i) acc (t :: t' :: ts))
      with (join_texts (S (S i)) ((acc ++ LF) ++ t) (t' :: ts)).
    rewrite IH.
    change (String.concat LF (t :: t' :: ts))
      with (t ++ LF ++ String.concat LF (t' :: ts)).
    now rewrite !append_assoc.
Qed.

Lemma join_texts_concat (texts : list string) :
  join_texts 0 "" texts = String.concat LF texts.
Proof.
  destruct texts as [|t [|t' ts]]; try reflexivity.
  change (join_texts 0 "" (t :: t' :: ts))
    with (join_texts 1 t (t' :: ts)).
  now rewrite join_texts_from.
Qed.

(** The [values] of the console case are the arguments' values, each with
    its quotes trimmed, in order. *)
Lemma console_values_map (args : list RemoteObject) :
  console_values args = map (fun arg => trim_quotes (Value arg)) args.
Proof.
  unfold console_values.
  assert (H : forall acc,
    fold_left (fun values arg => (values ++ [trim_quotes (Value arg)])%list)
      args acc
    = (acc ++ map (fun arg => trim_quotes (Value arg)) args)%list).
  { induction args as [|a args IH]; intros acc; simpl.
    - now rewrite app_nil_r.
    - rewrite IH, <- app_assoc. reflexivity. }
  apply H.
Qed.

(** ** Running monadic code *)

Lemma skipn_length_app {A} (l x : list A) :
  skipn (List.length l) (l ++ x)%list = x.
Proof. induction l as [|a l IH]; simpl; [reflexivity | exact IH]. Qed.

Lemma skipn_length_nil {A} (l : list A) : skipn (List.length l) l = [].
Proof. induction l as [|a l IH]; simpl; [reflexivity | exact IH]. Qed.

(** Unfold the monad and the logging facade down to worlds. *)
Ltac go_unfold :=
  unfold emitted, bind, ret, when, ask, slog_Debug, slog_Info, slog_Warn,
    slog_Error, chromedp_ListenTarget, cancel_func, emit in *;
  cbn [fst snd trace contexts negb] in *.

(** Bring a trace of the shape [((t ++ [a]) ++ [b]) ++ ...] to [t ++ [a; b; ...]]
    and read off what was added to [t]. *)
Ltac go_trace :=
  repeat rewrite <- app_assoc; cbn [app];
  try rewrite skipn_length_app; try rewrite skipn_length_nil.

(** ** C1: the timeout follows the delay *)


Lemma validate_config_error (cfg : Main.Config) (w : World) :
  0 <= Main.Delay cfg ->
  snd (fst (Main.validate_config cfg w)) = None
  <-> requests_action cfg = true.
Proof.
  intros Hd. unfold Main.validate_config, requests_action.
  replace (Main.Delay cfg <? 0)%Z with false by (symmetry; apply Z.ltb_ge; lia).
  destruct (60 <? Main.Delay cfg)%Z;
    destruct (Main.Timeout cfg <=? GoInt.add (Main.Delay cfg) 10)%Z;
    go_unfold;
    destruct cfg as [cl sc pdf gb sel t d tg ll rp]; cbn;
    destruct cl, sc, pdf, gb, (sel =? ""); cbn;
    split; (reflexivity || discriminate).
Qed.

Lemma validate_config_logs_adjustment (cfg : Main.Config) (w : World) :
  0 <= Main.Delay cfg ->
  In (Main.timeout_adjusted_record (Main.Timeout cfg) (Main.Delay cfg)
        (GoInt.add (Main.Delay cfg) 10))
     (emitted (Main.validate_config cfg) w)
  <-> (Main.Timeout cfg <=? GoInt.add (Main.Delay cfg) 10)%Z = true.
Proof.
  intros Hd. unfold Main.validate_config.
  replace (Main.Delay cfg <? 0)%Z with false by (symmetry; apply Z.ltb_ge; lia).
  destruct (60 <? Main.Delay cfg)%Z;
    destruct (Main.Timeout cfg <=? GoInt.add (Main.Delay cfg) 10)%Z;
    go_unfold;
    destruct cfg as [cl sc pdf gb sel t d tg ll rp]; cbn;
    destruct cl, sc, pdf, gb, (sel =? ""); cbn; go_trace;
    unfold Main.timeout_adjusted_record; cbn;
    (split; [ intros H; first [ reflexivity
                               | repeat destruct H as [H|H];
                                 try discriminate H; contradiction ]
            | intros H; first [ discriminate H | tauto ] ]).
Qed.



(** ** C4: the format of a remote endpoint *)

Section SplitOnChar.

Variable c : ascii.
Let sep : string := String c "".

Lemma prefix_char (a : ascii) (s : string) :
  String.prefix sep (String a s) = Ascii.eqb c a.
Proof.
  unfold sep. rewrite prefix_cons, prefix_nil.
  now destruct (Ascii.eqb c a).
Qed.

Lemma Contains_char_cons (a : ascii) (s : string) :
  Strings.Contains (String a s) sep = Ascii.eqb c a || Strings.Contains s sep.
Proof. cbn [Strings.Contains]. now rewrite prefix_char. Qed.

Lemma split_from_nonempty (cur s : string) :
  (1 <= List.length (Strings.split_from sep 0 cur s))%nat.
Proof.
  revert cur. induction s as [|a s IH]; intros cur.
  - simpl. lia.
  - cbn [Strings.split_from]. rewrite prefix_char.
    destruct (Ascii.eqb c a).
    + simpl. lia.
    + apply IH.
Qed.

(** Without a separator there is one component: the whole string. *)
Lemma split_from_no_sep (cur s : string) :
  Strings.Contains s sep = false ->
  Strings.split_from sep 0 cur s = [cur ++ s].
Proof.
  revert cur. induction s as [|a s IH]; intros cur H.
  - simpl. now rewrite append_nil_r.
  - rewrite Contains_char_cons in H. apply orb_false_iff in H.
    destruct H as [Ha Hs].
    cbn [Strings.split_from]. rewrite prefix_char, Ha, (IH _ Hs).
    now rewrite append_assoc.
Qed.

(** The first component ends at the first separator. *)
Lemma split_from_first (cur h p : string) :
  Strings.Contains h sep = false ->
  Strings.split_from sep 0 cur (h ++ sep ++ p)
  = (cur ++ h) :: Strings.split_from sep 0 "" p.
Proof.
  revert cur. induction h as [|a h IH]; intros cur H.
  - cbn [append sep]. cbn [Strings.split_from]. fold sep.
    rewrite prefix_char, Ascii.eqb_refl, append_nil_r. reflexivity.
  - rewrite Contains_char_cons in H. apply orb_false_iff in H.
    destruct H as [Ha Hh].
    cbn [append]. cbn [Strings.split_from].
    rewrite prefix_char, Ha, (IH _ Hh), append_assoc. reflexivity.
Qed.

(** A string that contains the separator has a first occurrence of it. *)
Lemma Contains_char_first (s : string) :
  Strings.Contains s sep = true ->
  exists h p, s = h ++ sep ++ p /\ Strings.Contains h sep = false.
Proof.
  induction s as [|a s IH]; intros H.
  - discriminate H.
  - rewrite Contains_char_cons in H.
    destruct (Ascii.eqb_spec c a) as [<-|Hne].
    + exists "", s. split; reflexivity.
    + destruct (IH H) as [h [p [Hs Hh]]].
      exists (String a h), p. split.
      * simpl. now rewrite Hs.
      * rewrite Contains_char_cons, Hh.
        apply Ascii.eqb_neq in Hne. now rewrite Hne.
Qed.

Lemma split_from_single (cur s : string) :
  List.length (Strings.split_from sep 0 cur s) = 1%nat ->
  Strings.Contains s sep = false.
Proof.
  intros H. destruct (Strings.Contains s sep) eqn:E; [|reflexivity].
  destruct (Contains_char_first s E) as [h [p [-> Hh]]].
  rewrite (split_from_first _ _ _ Hh) in H. simpl in H.
  pose proof (split_from_nonempty "" p). lia.
Qed.

End SplitOnChar.

(** The checks of lines 42-50 accept exactly the endpoints of the shape
    [host:port]. *)
Lemma endpoint_format_ok_spec (s : string) :
  endpoint_format_ok s = true <-> host_port s.
Proof.
  unfold endpoint_format_ok, host_port, Strings.Split. split.
  - intros H. apply andb_true_iff in H. destruct H as [Hc H].
    destruct (Contains_char_first _ s Hc) as [h [p [-> Hh]]].
    rewrite (split_from_first _ "" h p Hh) in H. cbn [append] in H.
    cbv zeta in H. cbn [List.length nth] in H.
    apply andb_true_iff in H. destruct H as [H Hp].
    apply andb_true_iff in H. destruct H as [Hlen Hh'].
    apply Nat.eqb_eq in Hlen.
    assert (Hp' : Strings.Contains p ":" = false).
    { apply (split_from_single _ "" p). lia. }
    rewrite (split_from_no_sep _ "" p Hp') in Hp. cbn [append nth] in Hp.
    exists h, p. repeat split; try assumption.
    + intros ->. discriminate Hh'.
    + intros ->. discriminate Hp.
  - intros [h [p [-> [Hh [Hp [Hch Hcp]]]]]].
    assert (Hc : Strings.Contains (h ++ ":" ++ p) ":" = true).
    { apply Contains_spec. exists h, p. reflexivity. }
    rewrite Hc, (split_from_first _ "" h p Hch),
      (split_from_no_sep _ "" p Hcp).
    cbn. apply String.eqb_neq in Hh. apply String.eqb_neq in Hp.
    now rewrite Hh, Hp.
Qed.

(** The debug record every call of [InitializeChromedp] starts with. *)
Lemma InitializeChromedp_rejects
  (env : Env) (target : string) (timeout delay : Z)
  (endpoint jsCode : string) (w : World) :
  endpoint <> "" ->
  endpoint_format_ok endpoint = false ->
  (exists e, fst (InitializeChromedp env target timeout delay endpoint jsCode w)
             = Err e
             /\ is_format_error endpoint e)
  /\ exists attrs,
       emitted (InitializeChromedp env target timeout delay endpoint jsCode) w
       = [Log LevelDebug "Initializing Chrome browser" attrs].
Proof.
  intros Hne Hbad. apply String.eqb_neq in Hne.
  unfold endpoint_format_ok in Hbad. unfold InitializeChromedp.
  rewrite Hne. cbn [negb].
  destruct (Strings.Contains endpoint ":") eqn:Hc.
  - cbn [negb andb] in Hbad. cbv zeta in Hbad.
    assert (Hguard :
      negb (List.length (Strings.Split endpoint ":") =? 2)%nat
      || (nth 0 (Strings.Split endpoint ":") "" =? "")
      || (nth 1 (Strings.Split endpoint ":") "" =? "") = true).
    { destruct (List.length (Strings.Split endpoint ":") =? 2)%nat;
        destruct (nth 0 (Strings.Split endpoint ":") "" =? "");
        destruct (nth 1 (Strings.Split endpoint ":") "" =? "");
        try reflexivity; discriminate Hbad. }
    cbv zeta. rewrite Hguard. go_unfold. go_trace. split.
    + eexists. split; [reflexivity|]. eexists. split; reflexivity.
    + eexists. reflexivity.
  - cbn [negb]. go_unfold. go_trace. split.
    + eexists. split; [reflexivity|]. eexists. split; reflexivity.
    + eexists. reflexivity.
Qed.

Lemma InitializeChromedp_probes
  (env : Env) (target : string) (timeout delay : Z)
  (endpoint jsCode : string) (w : World) :
  endpoint <> "" ->
  endpoint_format_ok endpoint = true ->
  (forall e, fst (InitializeChromedp env target timeout delay endpoint jsCode w)
             = Err e ->
             ~ is_format_error endpoint e)
  /\ exists url,
       In (HttpGet url 3000000000)
          (emitted (InitializeChromedp env target timeout delay endpoint jsCode)
                   w).
Proof.
  intros Hne Hok. apply String.eqb_neq in Hne.
  unfold endpoint_format_ok in Hok. unfold InitializeChromedp.
  rewrite Hne. cbn [negb].
  apply andb_true_iff in Hok. destruct Hok as [Hc Hok]. rewrite Hc.
  cbn [negb]. cbv zeta in Hok |- *.
  apply andb_true_iff in Hok. destruct Hok as [Hok H1].
  apply andb_true_iff in Hok. destruct Hok as [Hlen H0].
  rewrite Hlen. apply negb_true_iff in H0, H1. rewrite H0, H1.
  cbn [negb orb].
  go_unfold. unfold chromedp_NewRemoteAllocator, chromedp_NewContext,
    context_WithTimeout, fresh_ctx.
  go_unfold.
  match goal with
  | |- context [client_Get env ?h ?u] =>
      destruct (client_Get env h u) as [[status [cerr|]]|err]
  end; cbn [BodyClose StatusCode fst snd trace];
    try destruct (status =? 200)%Z; cbn [negb fst snd trace]; go_trace;
    (split;
     [ intros e He [format [Hf _]];
       first [ discriminate He | injection He as <-; discriminate Hf ]
     | eexists; cbn; eauto 10 ]).
Qed.

(** C4.  A remote endpoint handed to [InitializeChromedp] (a string that
    is not empty; the empty string asks for a local browser) that is not
    of the shape host:port, with exactly one [':'] between two components
    that are not empty, is refused with a format error naming it, and
    nothing but log records has left the program by then: no network
    request was made.  An endpoint of that shape passes the validation:
    the probe request is sent and no format error is returned. *)
Theorem remote_endpoint_validation
  (env : Env) (target : string) (timeout delay : Z)
  (endpoint jsCode : string) (w : World) :
  endpoint <> "" ->
  let establish :=
    InitializeChromedp env target timeout delay endpoint jsCode in
  (~ host_port endpoint ->
     (exists e, fst (establish w) = Err e /\ is_format_error endpoint e)
     /\ (forall ev, In ev (emitted establish w) -> is_log ev = true)
     /\ (forall ev, In ev (emitted establish w) -> is_http_get ev = false))
  /\ (host_port endpoint ->
     (forall e, fst (establish w) = Err e -> ~ is_format_error endpoint e)
     /\ exists url, In (HttpGet url 3000000000) (emitted establish w)).
Proof.
  intros Hne establish. split.
  - intros Hbad.
    assert (Hf : endpoint_format_ok endpoint = false).
    { destruct (endpoint_format_ok endpoint) eqn:E; [|reflexivity].
      exfalso. apply Hbad. now apply endpoint_format_ok_spec. }
    destruct (InitializeChromedp_rejects env target timeout delay endpoint
                jsCode w Hne Hf) as [He [attrs Hev]].
    split; [exact He|]. unfold establish. rewrite Hev.
    split; intros ev [<-|[]]; reflexivity.
  - intros Hgood. apply endpoint_format_ok_spec in Hgood.
    apply InitializeChromedp_probes; assumption.
Qed.

(** The endpoints named by the specification, run against a browser that
    answers the probe: ["localhost:9222"] passes the validation, and
    ["localhost"], ["localhost:"] and [":9222"] are each refused with a
    format error. *)
Lemma remote_endpoint_validation_witness :
  let establish endpoint :=
    InitializeChromedp ok_env "https://example.com" 10 2 endpoint "" in
  (exists url,
      In (HttpGet url 3000000000)
         (emitted (establish "localhost:9222") empty_world))
  /\ (exists e, fst (establish "localhost" empty_world) = Err e
                /\ is_format_error "localhost" e)
  /\ (exists e, fst (establish "localhost:" empty_world) = Err e
                /\ is_format_error "localhost:" e)
  /\ (exists e, fst (establish ":9222" empty_world) = Err e
                /\ is_format_error ":9222" e).
Proof.
  intros establish.
  assert (Hgood : host_port "localhost:9222")
    by (apply endpoint_format_ok_spec; reflexivity).
  assert (Hbad : forall s, endpoint_format_ok s = false -> ~ host_port s).
  { intros s Hs H. apply endpoint_format_ok_spec in H. congruence. }
  pose proof (fun endpoint Hne =>
    remote_endpoint_validation ok_env "https://example.com" 10 2 endpoint ""
      empty_world Hne) as V.
  cbv zeta in V. fold establish in V.
  split; [apply (V "localhost:9222"); [discriminate | exact Hgood]|].
  split; [apply (V "localhost"); [discriminate | apply Hbad; reflexivity]|].
  split; [apply (V "localhost:"); [discriminate | apply Hbad; reflexivity]|].
  apply (V ":9222"); [discriminate | apply Hbad; reflexivity].
Defined.

(** The same four endpoints, by running the code: which check refuses
    each, whatever the environment. *)
Example endpoint_without_colon (env : Env) (w : World) :
  fst (InitializeChromedp env "https://example.com" 10 2 "localhost" "" w)
  = Err (Errorf
      "invalid remote debugging port format: %s (expected format: localhost:9222)"
      [AString "localhost"]).
Proof. reflexivity. Qed.

Example endpoint_with_empty_port (env : Env) (w : World) :
  fst (InitializeChromedp env "https://example.com" 10 2 "localhost:" "" w)
  = Err (Errorf
      "invalid remote debugging port format: %s (expected format: host:port)"
      [AString "localhost:"]).
Proof. reflexivity. Qed.

Example endpoint_with_empty_host (env : Env) (w : World) :
  fst (InitializeChromedp env "https://example.com" 10 2 ":9222" "" w)
  = Err (Errorf
      "invalid remote debugging port format: %s (expected format: host:port)"
      [AString ":9222"]).
Proof. reflexivity. Qed.

Example endpoint_with_two_colons (env : Env) (w : World) :
  fst (InitializeChromedp env "https://example.com" 10 2
         "http://localhost:9222" "" w)
  = Err (Errorf
      "invalid remote debugging port format: %s (expected format: host:port)"
      [AString "http://localhost:9222"]).
Proof. reflexivity. Qed.

Example endpoint_host_port_is_probed :
  emitted (InitializeChromedp ok_env "https://example.com" 10 2
             "localhost:9222" "") empty_world
  = [ Log LevelDebug "Initializing Chrome browser"
        [("target", AString "https://example.com"); ("timeout", AInt 10);
         ("delay", AInt 2); ("remotePort", AString "localhost:9222");
         ("hasJSCode", ABool false)];
      Log LevelDebug "Testing connection to remote Chrome instance"
        [("testURL", AString "http://localhost:9222/json/version")];
      HttpGet "http://localhost:9222/json/version" 3000000000;
      Log LevelDebug "Successfully connected to remote Chrome instance"
        [("url", AString "http://localhost:9222")];
      NewRemoteAllocator Background "http://localhost:9222" 1%nat;
      NewContext 1%nat 2%nat;
      WithTimeout 2%nat 10000000000 3%nat;
      Log LevelDebug "Remote Chrome context created successfully" [] ].
Proof. reflexivity. Qed.

(** ** C9: the order of cancellation *)

(** A local session is always established. *)
Lemma InitializeChromedp_local
  (env : Env) (target : string) (timeout delay : Z) (jsCode : string)
  (w : World) :
  exists b, fst (InitializeChromedp env target timeout delay "" jsCode w)
            = Ok b.
Proof. eexists. reflexivity. Qed.

(** C9.  A session returned by [InitializeChromedp] for a remote endpoint
    was built from three contexts, the allocator connection [alloc], the
    task handle [task] made from it, and the session context [Ctx b] that
    puts the deadline on [task]; its [Cancel] calls their cancel functions
    in the order deadline, task, allocator, each of them, and calls nothing
    else.  A session for a local browser was built from [alloc] and the
    deadline context [Ctx b] on it, and its [Cancel] calls the deadline's
    cancel function, then the allocator's. *)
Theorem cancellation_order
  (env : Env) (target : string) (timeout delay : Z)
  (endpoint jsCode : string) (w w' : World) (b : Browser) :
  InitializeChromedp env target timeout delay endpoint jsCode w = (Ok b, w') ->
  let created :=
    emitted (InitializeChromedp env target timeout delay endpoint jsCode) w in
  (endpoint <> "" ->
   exists url alloc task,
     In (NewRemoteAllocator Background url alloc) created
     /\ In (NewContext alloc task) created
     /\ In (WithTimeout task (GoInt.seconds timeout) (Ctx b)) created
     /\ alloc <> task /\ task <> Ctx b /\ alloc <> Ctx b
     /\ forall w2,
          emitted (Cancel b) w2
          = [CancelCalled (Ctx b); CancelCalled task; CancelCalled alloc])
  /\ (endpoint = "" ->
      exists alloc,
        In (NewContext Background alloc) created
        /\ In (WithTimeout alloc (GoInt.seconds timeout) (Ctx b)) created
        /\ alloc <> Ctx b
        /\ forall w2,
             emitted (Cancel b) w2
             = [CancelCalled (Ctx b); CancelCalled alloc]).
Proof.
  intros H created. unfold created. clear created.
  unfold InitializeChromedp in *.
  destruct (endpoint =? "") eqn:He.
  - (* a new headless Chrome instance *)
    split; [intros Hne; apply String.eqb_eq in He; contradiction|].
    intros _. cbn [negb] in *.
    unfold chromedp_NewContext, context_WithTimeout, fresh_ctx in *.
    go_unfold. injection H as <- <-. go_trace.
    exists (S (contexts w)). cbn [Ctx Cancel].
    repeat split; cbn; auto; try lia.
    intros w2. go_unfold. go_trace. reflexivity.
  - (* an existing Chrome instance *)
    split; [intros _ | intros ->; discriminate He].
    cbn [negb] in *.
    destruct (Strings.Contains endpoint ":"); cbn [negb] in *;
      [|go_unfold; discriminate H].
    cbv zeta in *.
    destruct (negb (List.length (Strings.Split endpoint ":") =? 2)%nat
              || (nth 0 (Strings.Split endpoint ":") "" =? "")
              || (nth 1 (Strings.Split endpoint ":") "" =? ""));
      [go_unfold; discriminate H|].
    unfold chromedp_NewRemoteAllocator, chromedp_NewContext,
      context_WithTimeout, fresh_ctx in *.
    go_unfold.
    match type of H with
    | context [client_Get env ?h ?u] =>
        destruct (client_Get env h u) as [[status [cerr|]]|err]
    end; cbn [BodyClose StatusCode fst snd trace] in *;
      try (destruct (status =? 200)%Z); cbn [negb fst snd trace] in *;
      try discriminate H;
      injection H as <- <-; go_trace; cbn [Ctx Cancel];
      eexists _, (S (contexts w)), (S (S (contexts w)));
      (repeat split; cbn; eauto 12; try lia);
      intros w2; go_unfold; go_trace; reflexivity.
Qed.

(** A session for a remote browser and one for a local browser, against
    the test double. *)
Lemma cancellation_order_witness :
  (exists url alloc task,
      In (NewRemoteAllocator Background url alloc)
         (emitted (InitializeChromedp ok_env "https://example.com" 10 2
                     "localhost:9222" "") empty_world)
      /\ In (NewContext alloc task)
            (emitted (InitializeChromedp ok_env "https://example.com" 10 2
                        "localhost:9222" "") empty_world)
      /\ In (WithTimeout task (GoInt.seconds 10)
               (Ctx (session_of (established "localhost:9222"))))
            (emitted (InitializeChromedp ok_env "https://example.com" 10 2
                        "localhost:9222" "") empty_world)
      /\ alloc <> task
      /\ task <> Ctx (session_of (established "localhost:9222"))
      /\ alloc <> Ctx (session_of (established "localhost:9222"))
      /\ forall w2,
           emitted (Cancel (session_of (established "localhost:9222"))) w2
           = [CancelCalled (Ctx (session_of (established "localhost:9222")));
              CancelCalled task; CancelCalled alloc])
  /\ (exists alloc,
      In (NewContext Background alloc)
         (emitted (InitializeChromedp ok_env "https://example.com" 10 2
                     "" "") empty_world)
      /\ In (WithTimeout alloc (GoInt.seconds 10)
               (Ctx (session_of (established ""))))
            (emitted (InitializeChromedp ok_env "https://example.com" 10 2
                        "" "") empty_world)
      /\ alloc <> Ctx (session_of (established ""))
      /\ forall w2,
           emitted (Cancel (session_of (established ""))) w2
           = [CancelCalled (Ctx (session_of (established "")));
              CancelCalled alloc]).
Proof.
  split.
  - refine (proj1 (cancellation_order ok_env "https://example.com" 10 2
                     "localhost:9222" "" empty_world
                     (snd (established "localhost:9222"))
                     (session_of (established "localhost:9222")) _) _).
    + reflexivity.
    + discriminate.
  - refine (proj2 (cancellation_order ok_env "https://example.com" 10 2
                     "" "" empty_world
                     (snd (established ""))
                     (session_of (established "")) _) _).
    + reflexivity.
    + reflexivity.
Defined.

Example cancel_remote_session :
  match fst (InitializeChromedp ok_env "https://example.com" 10 2
               "localhost:9222" "" empty_world) with
  | Ok b => Ctx b = 3%nat
            /\ emitted (Cancel b) empty_world
               = [CancelCalled 3%nat; CancelCalled 2%nat; CancelCalled 1%nat]
  | Err _ => False
  end.
Proof. split; reflexivity. Qed.

Example cancel_local_session :
  match fst (InitializeChromedp ok_env "https://example.com" 10 2
               "" "" empty_world) with
  | Ok b => Ctx b = 2%nat
            /\ emitted (Cancel b) empty_world
               = [CancelCalled 2%nat; CancelCalled 1%nat]
  | Err _ => False
  end.
Proof. split; reflexivity. Qed.

(** ** Computations only add to the trace *)

Lemma appends_ret {A} (a : A) : appends (ret a).
Proof. intros w. exists []. simpl. now rewrite app_nil_r. Qed.

Lemma appends_emit (e : event) : appends (emit e).
Proof. intros w. exists [e]. reflexivity. Qed.

Lemma appends_ask {A} (oracle : list event -> A) : appends (ask oracle).
Proof. intros w. exists []. simpl. now rewrite app_nil_r. Qed.

Lemma appends_fresh_ctx : appends fresh_ctx.
Proof. intros w. exists []. simpl. now rewrite app_nil_r. Qed.

Lemma appends_bind {A B} (m : M A) (k : A -> M B) :
  appends m -> (forall a, appends (k a)) -> appends (bind m k).
Proof.
  intros Hm Hk w. unfold bind.
  destruct (Hm w) as [l1 H1]. destruct (m w) as [a w1]. simpl in H1.
  destruct (Hk a w1) as [l2 H2]. exists (l1 ++ l2)%list.
  now rewrite H2, H1, app_assoc.
Qed.

Lemma appends_when (b : bool) (m : M unit) : appends m -> appends (when b m).
Proof. destruct b; [trivial | intros _; apply appends_ret]. Qed.

Create HintDb appends.
#[local] Hint Resolve appends_ret appends_emit appends_ask appends_fresh_ctx
  appends_when : appends.

(** Decompose a computation along its binds and case distinctions. *)
Ltac appends_step :=
  first
    [ apply appends_bind; [|intros ?]
    | match goal with
      | |- appends (match ?x with _ => _ end) => destruct x
      | |- appends (let (_, _) := ?x in _) => destruct x
      | |- appends (if ?x then _ else _) => destruct x
      end
    | solve [auto with appends] ].

Ltac solve_appends :=
  unfold slog_Debug, slog_Info, slog_Warn, slog_Error, chromedp_ListenTarget,
    cancel_func;
  repeat appends_step.



Section LibraryAppends.

Variable env : Env.

Lemma appends_Tasks_Do {S} (actions : list (Action S)) (c : ctx_id) (s : S) :
  Forall (fun a => forall c s, appends (a c s)) actions ->
  appends (Tasks_Do actions c s).
Proof.
  intros H. revert s. induction H as [|a rest Ha _ IH]; intros s.
  - apply appends_ret.
  - cbn [Tasks_Do]. apply appends_bind; [apply Ha|].
    intros [[e|] s']; [apply appends_ret | apply IH].
Qed.

Lemma appends_Run {S} (actions : list (Action S)) (c : ctx_id) (s : S) :
  Forall (fun a => forall c s, appends (a c s)) actions ->
  appends (chromedp_Run env c actions s).
Proof.
  intros H. unfold chromedp_Run. solve_appends.
  now apply appends_Tasks_Do.
Qed.




End LibraryAppends.

(** ** C3: scripts that contain 'await' *)

(** Case analysis on the answer of an oracle that the goal branches on. *)
Ltac destruct_answer :=
  match goal with
  | |- context [match ?x with _ => _ end] =>
      lazymatch x with
      | context [match _ with _ => _ end] => fail
      | _ => destruct x eqn:?
      end
  end.

Ltac go_cases :=
  go_unfold; repeat (destruct_answer; go_unfold); go_trace.

Section Pipeline.

Variable env : Env.

Lemma executeJSAction_commands {S} (b : Browser) (ctx : ctx_id) (s : S)
  (w : World) :
  commands_of (emitted (executeJSAction env b ctx s) w) = script_commands b ctx.
Proof.
  unfold executeJSAction, script_commands, async_wrapped,
    runtime_Evaluate_await, chromedp_Evaluate_any.
  destruct (JSCode b =? ""); [go_unfold; go_trace; reflexivity|].
  destruct (Strings.Contains (JSCode b) "await"); go_cases; reflexivity.
Qed.


(** An awaited script succeeds exactly when the browser reports that the
    promise settled without an error and without an exception. *)
Lemma executeJSAction_await_result {S} (b : Browser) (ctx : ctx_id) (s : S)
  (w : World) :
  Strings.Contains (JSCode b) "await" = true ->
  fst (fst (executeJSAction env b ctx s w)) = None
  <-> do_RuntimeEvaluate env
        (trace w ++
         [Log LevelDebug "Executing custom JavaScript"
            [("codeLength", AInt (len (JSCode b))); ("hasAwait", ABool true)];
          Do ctx (RuntimeEvaluate (async_wrapped (JSCode b)) true)])
        ctx (async_wrapped (JSCode b))
      = Ok None.
Proof.
  intros Ha. unfold executeJSAction, async_wrapped, runtime_Evaluate_await.
  assert (Hne : (JSCode b =? "") = false).
  { destruct (JSCode b); [discriminate Ha | reflexivity]. }
  rewrite Hne, Ha. go_unfold. rewrite <- app_assoc. cbn [app].
  destruct (do_RuntimeEvaluate env _ ctx _) as [[text|]|err];
    cbn; split; intros H; (reflexivity || discriminate H).
Qed.

End Pipeline.

(** C3.  A configured script (a [JSCode] that is not empty) that contains
    the substring "await" is sent to the browser once, wrapped as
    ["(async () => { " + script + " })();"], with [awaitPromise] set, and
    the injection step returns success only on the browser's answer that
    the awaited evaluation finished without error or exception.  A
    configured script without the substring is sent once as it is,
    through [chromedp.Evaluate], which neither wraps nor awaits. *)
Theorem async_detection
  (S : Type) (env : Env) (b : Browser) (ctx : ctx_id) (s : S) (w : World) :
  let script := JSCode b in
  let inject := executeJSAction env b ctx s in
  let wrapped := "(async () => { " ++ script ++ " })();" in
  ((exists pre post, script = pre ++ "await" ++ post) ->
   commands_of (emitted inject w) = [(ctx, RuntimeEvaluate wrapped true)]
   /\ (fst (fst (inject w)) = None
       <-> do_RuntimeEvaluate env
             (trace w ++
              [Log LevelDebug "Executing custom JavaScript"
                 [("codeLength", AInt (len script)); ("hasAwait", ABool true)];
               Do ctx (RuntimeEvaluate wrapped true)])
             ctx wrapped
           = Ok None))
  /\ (script <> "" ->
      ~ (exists pre post, script = pre ++ "await" ++ post) ->
      commands_of (emitted inject w) = [(ctx, Evaluate script IntoAny true)]).
Proof.
  intros script inject wrapped. split.
  - intros Ha. apply Contains_spec in Ha. split.
    + unfold inject. rewrite executeJSAction_commands.
      unfold script_commands. fold script. rewrite Ha.
      destruct script; [discriminate Ha | reflexivity].
    + apply executeJSAction_await_result. exact Ha.
  - intros Hne Hno. unfold inject. rewrite executeJSAction_commands.
    unfold script_commands. fold script.
    apply String.eqb_neq in Hne. rewrite Hne.
    destruct (Strings.Contains script "await") eqn:Ha; [|reflexivity].
    exfalso. apply Hno. now apply Contains_spec.
Qed.

(** The scripts of the documentation, and the letter of the substring
    test: a mention inside a longer word counts. *)
Lemma async_detection_witness :
  let commands script :=
    commands_of (emitted (executeJSAction (S := unit) ok_env
                            (session_with_script script) 1%nat tt)
                         empty_world) in
  commands "await fetch('/api/data');"
  = [(1%nat, RuntimeEvaluate "(async () => { await fetch('/api/data'); })();"
               true)]
  /\ commands "let awaiting = 1"
     = [(1%nat, RuntimeEvaluate "(async () => { let awaiting = 1 })();" true)]
  /\ commands "window.scrollTo(0, document.body.scrollHeight)"
     = [(1%nat, Evaluate "window.scrollTo(0, document.body.scrollHeight)"
                  IntoAny true)].
Proof.
  intros commands.
  pose proof (fun script =>
    async_detection unit ok_env (session_with_script script) 1%nat tt
      empty_world) as D.
  cbv zeta in D. cbn [JSCode session_with_script] in D.
  split; [|split].
  - apply (D "await fetch('/api/data');").
    exists "", " fetch('/api/data');". reflexivity.
  - apply (D "let awaiting = 1").
    exists "let ", "ing = 1". reflexivity.
  - apply (D "window.scrollTo(0, document.body.scrollHeight)").
    + discriminate.
    + intros H. apply Contains_spec in H. discriminate H.
Defined.

Example async_detection_is_case_sensitive :
  commands_of (emitted (executeJSAction (S := unit) ok_env
                          (session_with_script "Await(x); AWAIT(y)") 1%nat tt)
                       empty_world)
  = [(1%nat, Evaluate "Await(x); AWAIT(y)" IntoAny true)].
Proof. reflexivity. Qed.

(** ** C5: the order of the navigation pipeline *)

Section PipelineOrder.

Variable env : Env.






End PipelineOrder.


(** A run with an awaited script followed by a screenshot, as the trace
    shows it. *)
Example pipeline_then_screenshot :
  commands_of
    (emitted (NavigateAndPrepare ok_env (session_with_script "await ready()")
              ;; run_executor ok_env FullPageScreenshot
                   (session_with_script "await ready()"))
             empty_world)
  = [ (1%nat, Navigate "https://example.com");
      (1%nat, Sleep 2000000000);
      (1%nat, RuntimeEvaluate "(async () => { await ready() })();" true);
      (1%nat, FullScreenshot 90) ].
Proof. reflexivity. Qed.

(** The same without a script: the injection step leaves no trace. *)
Example pipeline_without_script :
  emitted (NavigateAndPrepare ok_env (session_with_script "")) empty_world
  = [ Log LevelDebug "Navigating to target URL"
        [("url", AString "https://example.com")];
      RunCalled 1%nat;
      Do 1%nat (Navigate "https://example.com");
      Log LevelDebug "Applying rendering delay"
        [("delay", AInt 2); ("url", AString "https://example.com")];
      Do 1%nat (Sleep 2000000000);
      Log LevelDebug "Navigation and preparation completed successfully" [] ].
Proof. reflexivity. Qed.

(** ** C2: the executors do not navigate *)

Ltac go_executor :=
  unfold run_executor, executor_command, GetBodyText, GetTextBySelector,
    TakeScreenshot, PrintToPDF, chromedp_Run, chromedp_FullScreenshot,
    chromedp_Evaluate_strings, page_PrintToPDF_background;
  cbn [Tasks_Do].

(** C2.  On every session, each of the four executors (full-page
    screenshot, PDF rendering, text by selector, body text) issues at
    most one browser command, its own capture or query on the session's
    context [Ctx b], and exactly that one when it returns success.  None
    of its commands is a navigation: the page it acts on is the one the
    session already shows. *)
Theorem executors_do_not_navigate
  (env : Env) (x : executor) (b : Browser) (w : World) :
  let issued := commands_of (emitted (run_executor env x b) w) in
  (issued = [] \/ issued = [(Ctx b, executor_command x)])
  /\ (fst (run_executor env x b w) = None ->
      issued = [(Ctx b, executor_command x)])
  /\ (forall c cmd, In (c, cmd) issued -> is_navigation cmd = false).
Proof.
  intros issued.
  assert (H : (issued = [] \/ issued = [(Ctx b, executor_command x)])
              /\ (fst (run_executor env x b w) = None ->
                  issued = [(Ctx b, executor_command x)])).
  { unfold issued. destruct x; go_executor; go_cases; cbn [commands_of];
      (split; [auto | intros H; first [discriminate H | reflexivity]]). }
  destruct H as [H1 H2]. split; [exact H1|]. split; [exact H2|].
  intros c cmd Hin. destruct H1 as [H1|H1]; rewrite H1 in Hin.
  - contradiction.
  - destruct Hin as [Heq|[]]. injection Heq as _ <-. now destruct x.
Qed.

(** The earlier revision of the package differs: there, an executor that
    returns success has loaded the target first. *)
Lemma legacy_executors_navigate
  (env : Env) (x : executor) (b : Legacy.Browser) (w : World) :
  fst (run_legacy_executor env x b w) = None ->
  exists capture,
    commands_of (emitted (run_legacy_executor env x b) w)
    = [(Legacy.Ctx b, Navigate (Legacy.TargetURL b)); capture].
Proof.
  destruct x;
    unfold run_legacy_executor, Legacy.GetBodyText, Legacy.GetTextBySelector,
      Legacy.TakeScreenshot, Legacy.PrintToPDF, chromedp_Run,
      chromedp_Navigate, chromedp_FullScreenshot, chromedp_Evaluate_strings,
      page_PrintToPDF_background;
    cbn [Tasks_Do]; go_cases; cbn [commands_of]; intros H;
    first [discriminate H | eexists; reflexivity].
Qed.

(** ** C7: console messages *)

Lemma for_range_emits {A} (f : A -> event) (xs : list A) (w : World) :
  emitted (for_range xs (fun x => emit (f x))) w = map f xs.
Proof.
  assert (H : forall w, trace (snd (for_range xs (fun x => emit (f x)) w))
                        = (trace w ++ map f xs)%list).
  { induction xs as [|x xs IH]; intros w0.
    - simpl. now rewrite app_nil_r.
    - cbn [for_range map]. unfold bind at 1.
      destruct (emit (f x) w0) as [[] w1] eqn:E.
      rewrite IH. unfold emit in E. injection E as <-.
      cbn [trace]. now rewrite <- app_assoc. }
  unfold emitted. now rewrite H, skipn_length_app.
Qed.

(** C7.  For a console-API event the listener emits exactly one record:
    level Info, tagged with the console method type, its value the
    arguments' values joined with single spaces, each value with its
    surrounding double quotes cut off when it starts and ends with a
    double quote (and so is at least two bytes long) and left as it is
    otherwise. *)
Theorem console_message_line
  (ctx : ctx_id) (type : string) (args : list RemoteObject) (w : World) :
  emitted (console_listener ctx (EventConsoleAPICalled type args)) w
  = [ Log LevelInfo "Console message captured"
        [("type", AString type);
         ("value",
          AString (String.concat " "
                     (map (fun arg => trim_quotes (Value arg)) args)))] ]
  /\ (forall m,
        trim_quotes (String double_quote (m ++ String double_quote "")) = m)
  /\ (forall val,
        (forall m, val <> String double_quote (m ++ String double_quote "")) ->
        trim_quotes val = val).
Proof.
  split; [|split].
  - unfold console_listener, Strings.Join. rewrite console_values_map.
    go_unfold. go_trace. reflexivity.
  - apply trim_quotes_quoted.
  - apply trim_quotes_other.
Qed.

(** [console.log('Scroll', 3, 'of', 10)], as the browser reports it. *)
Example console_log_scroll :
  emitted (console_listener 1%nat
             (EventConsoleAPICalled "log"
                [ {| Value := String double_quote
                                ("Scroll" ++ String double_quote "") |};
                  {| Value := "3" |};
                  {| Value := String double_quote
                                ("of" ++ String double_quote "") |};
                  {| Value := "10" |};
                  {| Value := "" |};
                  {| Value := String double_quote "" |} ]))
          empty_world
  = [ Log LevelInfo "Console message captured"
        [("type", AString "log");
         ("value",
          AString ("Scroll 3 of 10  " ++ String double_quote ""))] ].
Proof. reflexivity. Qed.

(** The earlier revision of the package differs: one record per argument,
    with the value as the browser encoded it. *)
Lemma legacy_console_message_lines
  (ctx : ctx_id) (type : string) (args : list RemoteObject) (w : World) :
  emitted (Legacy.console_listener ctx (EventConsoleAPICalled type args)) w
  = map (fun arg =>
           Log LevelInfo "Console message captured"
             [("type", AString type); ("value", AString (Value arg))])
        args.
Proof. unfold Legacy.console_listener, slog_Info. apply for_range_emits. Qed.

(** ** C8: attaching the event bridge *)

(** C8.  [CaptureConsoleLogs] returns nil on every session and in every
    world, and so does nothing that could fail: like
    [SetupConsoleLogListeners], which has no result at all, it registers
    the listener between two debug records, consults nothing outside the
    program and issues no browser command. *)
Theorem attaching_cannot_fail (b : Browser) (w : World) :
  fst (CaptureConsoleLogs b w) = None
  /\ emitted (CaptureConsoleLogs b) w
     = [ Log LevelDebug "Setting up console log listeners" [];
         ListenTarget (Ctx b) (ConsoleListener (Ctx b));
         Log LevelDebug "Console log listeners set up successfully" [] ]
  /\ emitted (SetupConsoleLogListeners b) w
     = emitted (CaptureConsoleLogs b) w
  /\ commands_of (emitted (CaptureConsoleLogs b) w) = [].
Proof.
  unfold CaptureConsoleLogs, SetupConsoleLogListeners.
  go_unfold. go_trace.
  split; [reflexivity|]. split; [reflexivity|]. split; reflexivity.
Qed.

(** The earlier revision of the package differs: there
    [CaptureConsoleLogs] loads the target itself and hands back the error
    of that. *)
Lemma legacy_capture_can_fail
  (env : Env) (b : Legacy.Browser) (w : World) (e : error) :
  (forall h, run_start env h (Legacy.Ctx b) = Some e) ->
  fst (Legacy.CaptureConsoleLogs env b w) = Some e.
Proof.
  intros H. unfold Legacy.CaptureConsoleLogs, chromedp_Run.
  go_unfold. rewrite H. reflexivity.
Qed.

(** ** C6: text by selector *)





(** [GetBodyText] is the same with the selector "body". *)
Lemma GetBodyText_selector (env : Env) (b : Browser) :
  GetBodyText env b = GetTextBySelector env b "body".
Proof. reflexivity. Qed.

(** ** C10: the selector inside the script *)



(** A selector without quotes is the queried selector; an attribute
    selector written with single quotes ends the literal early. *)
Example selector_h1_is_queried :
  scan_single_quoted ("h1" ++ selector_suffix)
  = Some ("h1", selector_suffix_tail).
Proof. reflexivity. Qed.

Example selector_with_quote_changes_the_script :
  scan_single_quoted ("a[title='x']" ++ selector_suffix)
  = Some ("a[title=", "x']" ++ selector_suffix).
Proof. reflexivity. Qed.

Example selector_expression_h1 :
  selector_expression "h1"
  = LF ++ TAB ++ TAB ++ TAB
    ++ "Array.from(document.querySelectorAll('h1')).map(el => el.innerText.trim()).filter(text => text.length > 0)"
    ++ LF ++ TAB ++ TAB.
Proof. reflexivity. Qed.

(** * Further properties of the code *)

(** ** [InitializeChromedp]: resources, probe and errors *)

(** Unfold [InitializeChromedp] down to worlds. *)
Ltac go_establish :=
  unfold InitializeChromedp, chromedp_NewRemoteAllocator, chromedp_NewContext,
    context_WithTimeout, fresh_ctx in *;
  go_unfold.

(** Decide the membership of an event in a list that is written out. *)
Ltac in_cases H :=
  repeat (destruct H as [<-|H]; [try reflexivity|]); try contradiction.

(** X1.  [InitializeChromedp] returns an error only before it has created
    any context: on an error return the number of contexts is what it
    was and no event of the call created one, so there is nothing to
    release.  A session that is returned has the context created last as
    its [Ctx] and carries the target, the delay and the script as they
    were given. *)
Theorem failed_establishment_allocates_nothing
  (env : Env) (target : string) (timeout delay : Z)
  (endpoint jsCode : string) (w : World) :
  let establish :=
    InitializeChromedp env target timeout delay endpoint jsCode in
  match fst (establish w) with
  | Err _ =>
      contexts (snd (establish w)) = contexts w
      /\ (forall ev, In ev (emitted establish w) ->
                     is_context_event ev = false)
  | Ok b =>
      Ctx b = contexts (snd (establish w))
      /\ (contexts w < contexts (snd (establish w)))%nat
      /\ TargetURL b = target /\ Delay b = delay /\ JSCode b = jsCode
  end.
Proof.
  intros establish. unfold establish. clear establish.
  unfold InitializeChromedp.
  destruct (endpoint =? ""); cbn [negb].
  - go_establish. cbn [Ctx TargetURL Delay JSCode]. repeat split; lia.
  - destruct (Strings.Contains endpoint ":"); cbn [negb];
      [|go_unfold; go_trace; split; [reflexivity|];
        intros ev H; in_cases H].
    cbv zeta.
    destruct (negb (List.length (Strings.Split endpoint ":") =? 2)%nat
              || (nth 0 (Strings.Split endpoint ":") "" =? "")
              || (nth 1 (Strings.Split endpoint ":") "" =? ""));
      [go_unfold; go_trace; split; [reflexivity|];
       intros ev H; in_cases H|].
    go_establish.
    match goal with
    | |- context [client_Get env ?h ?u] =>
        destruct (client_Get env h u) as [[status [cerr|]]|err]
    end; cbn [BodyClose StatusCode fst snd trace contexts];
      try destruct (status =? 200)%Z;
      cbn [negb fst snd trace contexts Ctx TargetURL Delay JSCode];
      go_trace;
      first [ split; [reflexivity|]; intros ev H; in_cases H
            | repeat split; lia ].
Qed.

Lemma split_from_two (c : ascii) (cur s : string) :
  Strings.Contains s (String c "") = true ->
  (2 <= List.length (Strings.split_from (String c "") 0 cur s))%nat.
Proof.
  intros H. pose proof (split_from_nonempty c cur s) as H1.
  destruct (Nat.eq_dec (List.length (Strings.split_from (String c "") 0 cur s))
              1) as [E|E]; [|lia].
  apply split_from_single in E. congruence.
Qed.

Lemma Split_host_port_parts (host port : string) :
  Strings.Contains host ":" = false ->
  Strings.Contains port ":" = false ->
  Strings.Split (host ++ ":" ++ port) ":" = [host; port].
Proof.
  intros Hh Hp. unfold Strings.Split.
  rewrite (split_from_first _ "" host port Hh).
  now rewrite (split_from_no_sep _ "" port Hp).
Qed.

Lemma append_not_empty (a b : string) : a <> "" -> (a ++ b =? "") = false.
Proof. destruct a; [congruence | reflexivity]. Qed.

(** An endpoint with a scheme in front of host and port has two colons. *)
Lemma scheme_and_port_format (scheme rest : string) :
  scheme = "http://" \/ scheme = "https://" ->
  Strings.Contains rest ":" = true ->
  endpoint_format_ok (scheme ++ rest) = false.
Proof.
  intros Hs Hr. unfold endpoint_format_ok, Strings.Split.
  assert (Hp : Strings.Contains ("//" ++ rest) ":" = true).
  { apply Contains_spec. apply Contains_spec in Hr.
    destruct Hr as [a [b ->]]. exists ("//" ++ a), b.
    now rewrite !append_assoc. }
  assert (Hlen : forall h,
    Strings.Contains h ":" = false ->
    (List.length (Strings.split_from ":" 0 "" (h ++ ":" ++ "//" ++ rest))
     =? 2)%nat = false).
  { intros h Hh. rewrite (split_from_first _ "" h ("//" ++ rest) Hh).
    pose proof (split_from_two _ "" ("//" ++ rest) Hp) as H2.
    cbn [List.length]. apply Nat.eqb_neq. lia. }
  destruct Hs as [-> | ->].
  - change ("http://" ++ rest) with ("http" ++ ":" ++ "//" ++ rest).
    rewrite (Hlen "http" eq_refl). cbv zeta. cbn [andb].
    now rewrite andb_false_r.
  - change ("https://" ++ rest) with ("https" ++ ":" ++ "//" ++ rest).
    rewrite (Hlen "https" eq_refl). cbv zeta. cbn [andb].
    now rewrite andb_false_r.
Qed.

(** X2.  An endpoint given with its scheme and a port, ["http://"] or
    ["https://"] followed by anything with a [':'] in it, is refused with
    a format error: the scheme's colon counts as a separator.  An
    endpoint with a scheme that passes the checks has therefore no
    port. *)
Theorem scheme_and_port_refused
  (env : Env) (target : string) (timeout delay : Z)
  (scheme rest jsCode : string) (w : World) :
  scheme = "http://" \/ scheme = "https://" ->
  Strings.Contains rest ":" = true ->
  exists e,
    fst (InitializeChromedp env target timeout delay (scheme ++ rest) jsCode w)
    = Err e
    /\ is_format_error (scheme ++ rest) e.
Proof.
  intros Hs Hr.
  apply InitializeChromedp_rejects.
  - destruct Hs as [-> | ->]; discriminate.
  - now apply scheme_and_port_format.
Qed.

Lemma scheme_and_port_refused_witness :
  exists e,
    fst (InitializeChromedp ok_env "https://example.com" 10 2
           ("http://" ++ "localhost:9222") "" empty_world)
    = Err e
    /\ is_format_error ("http://" ++ "localhost:9222") e.
Proof.
  apply (scheme_and_port_refused ok_env "https://example.com" 10 2
           "http://" "localhost:9222" "" empty_world).
  - left. reflexivity.
  - reflexivity.
Defined.

(** Past the two format checks. *)
Ltac pass_validation Hne Hok :=
  apply String.eqb_neq in Hne;
  unfold endpoint_format_ok in Hok; unfold InitializeChromedp;
  rewrite Hne; cbn [negb];
  let Hc := fresh "Hc" in
  let Hlen := fresh "Hlen" in
  let H0 := fresh "H0" in
  let H1 := fresh "H1" in
  apply andb_true_iff in Hok; destruct Hok as [Hc Hok]; rewrite Hc;
  cbn [negb]; cbv zeta in Hok |- *;
  apply andb_true_iff in Hok; destruct Hok as [Hok H1];
  apply andb_true_iff in Hok; destruct Hok as [Hlen H0];
  rewrite Hlen; apply negb_true_iff in H0, H1; rewrite H0, H1;
  cbn [negb orb].

(** X3.  For an endpoint of the shape host:port the call sends exactly
    one probe, a GET with a timeout of three seconds to the endpoint's
    URL followed by ["/json/version"], where the URL is the endpoint
    itself if it starts with ["http://"] or ["https://"] and
    ["http://"] followed by the endpoint otherwise; only two debug
    records precede it.  A session that is returned is attached to the
    same URL. *)
Theorem probe_goes_to_the_endpoint
  (env : Env) (target : string) (timeout delay : Z)
  (endpoint jsCode : string) (w : World) :
  host_port endpoint ->
  let establish :=
    InitializeChromedp env target timeout delay endpoint jsCode in
  let url := remote_url endpoint ++ "/json/version" in
  exists attrs after,
    emitted establish w
    = (Log LevelDebug "Initializing Chrome browser" attrs
       :: Log LevelDebug "Testing connection to remote Chrome instance"
            [("testURL", AString url)]
       :: HttpGet url 3000000000 :: after)%list
    /\ (forall ev, In ev after -> is_http_get ev = false)
    /\ (forall b, fst (establish w) = Ok b ->
        exists alloc,
          In (NewRemoteAllocator Background (remote_url endpoint) alloc)
             after).
Proof.
  intros Hhp establish url. unfold establish, url, remote_url.
  clear establish url.
  assert (Hne : endpoint <> "").
  { destruct Hhp as [h [p [-> [Hh _]]]]. destruct h; [congruence|discriminate]. }
  apply endpoint_format_ok_spec in Hhp.
  pass_validation Hne Hhp.
  go_establish.
  match goal with
  | |- context [client_Get env ?h ?u] =>
      destruct (client_Get env h u) as [[status [cerr|]]|err]
  end; cbn [BodyClose StatusCode fst snd trace];
    try destruct (status =? 200)%Z; cbn [negb fst snd trace]; go_trace;
    eexists _, _; (split; [reflexivity|]);
    (split; [intros ev H; in_cases H|]);
    intros b Hb; first [discriminate Hb | eexists; cbn; eauto 10].
Qed.

Lemma probe_goes_to_the_endpoint_witness :
  exists attrs after,
    emitted (InitializeChromedp ok_env "https://example.com" 10 2
               "localhost:9222" "") empty_world
    = (Log LevelDebug "Initializing Chrome browser" attrs
       :: Log LevelDebug "Testing connection to remote Chrome instance"
            [("testURL", AString "http://localhost:9222/json/version")]
       :: HttpGet "http://localhost:9222/json/version" 3000000000
       :: after)%list
    /\ (forall ev, In ev after -> is_http_get ev = false)
    /\ (forall b,
          fst (InitializeChromedp ok_env "https://example.com" 10 2
                 "localhost:9222" "" empty_world) = Ok b ->
          exists alloc,
            In (NewRemoteAllocator Background "http://localhost:9222" alloc)
               after).
Proof.
  apply (probe_goes_to_the_endpoint ok_env "https://example.com" 10 2
           "localhost:9222" "" empty_world).
  apply endpoint_format_ok_spec. reflexivity.
Defined.

(** X4.  When the probe of an endpoint [host:port] cannot be sent, the
    call returns a connection error that names the endpoint, wraps the
    cause and repeats the port for the flag to start Chrome with; no
    context has been created. *)
Theorem unreachable_endpoint_error
  (env : Env) (target : string) (timeout delay : Z)
  (host port jsCode : string) (w : World) (cause : error) :
  host <> "" -> port <> "" ->
  Strings.Contains host ":" = false ->
  Strings.Contains port ":" = false ->
  (forall h u, client_Get env h u = Err cause) ->
  let establish :=
    InitializeChromedp env target timeout delay (host ++ ":" ++ port) jsCode in
  fst (establish w)
  = Err (Errorf
      "failed to connect to remote debugging port %s: %w (ensure Chrome is running with --remote-debugging-port=%s)"
      [AString (host ++ ":" ++ port); AError cause; AString port])
  /\ contexts (snd (establish w)) = contexts w.
Proof.
  intros Hh Hp Hch Hcp Hget establish. unfold establish. clear establish.
  assert (Hne : host ++ ":" ++ port <> "").
  { destruct host; [congruence | discriminate]. }
  assert (Hok : endpoint_format_ok (host ++ ":" ++ port) = true).
  { apply endpoint_format_ok_spec. exists host, port. auto. }
  pass_validation Hne Hok.
  rewrite (Split_host_port_parts host port Hch Hcp).
  go_establish. rewrite Hget. cbn [fst snd contexts nth]. split; reflexivity.
Qed.

Lemma unreachable_endpoint_error_witness :
  fst (InitializeChromedp env_unreachable "https://example.com" 10 2
         ("localhost" ++ ":" ++ "9222") "" empty_world)
  = Err (Errorf
      "failed to connect to remote debugging port %s: %w (ensure Chrome is running with --remote-debugging-port=%s)"
      [AString "localhost:9222";
       AError (ExternalError "connection refused"); AString "9222"])
  /\ contexts (snd (InitializeChromedp env_unreachable "https://example.com"
                      10 2 ("localhost" ++ ":" ++ "9222") "" empty_world))
     = contexts empty_world.
Proof.
  apply (unreachable_endpoint_error env_unreachable "https://example.com"
           10 2 "localhost" "9222" "" empty_world
           (ExternalError "connection refused"));
    try discriminate; reflexivity.
Defined.

(** X5.  When the probe of an endpoint of the shape host:port is
    answered, the session is established exactly when the status is 200;
    any other status gives a status error with the code and the probed
    URL.  A failure to close the response body is logged as a warning and
    changes nothing of this. *)
Theorem probe_status_decides
  (env : Env) (target : string) (timeout delay : Z)
  (endpoint jsCode : string) (w : World) (resp : http_response) :
  host_port endpoint ->
  (forall h u, client_Get env h u = Ok resp) ->
  let establish :=
    InitializeChromedp env target timeout delay endpoint jsCode in
  is_Ok (fst (establish w)) = (StatusCode resp =? 200)%Z
  /\ (StatusCode resp <> 200 ->
      fst (establish w)
      = Err (Errorf
          "remote debugging endpoint returned status %d at %s (ensure Chrome is running with remote debugging enabled)"
          [AInt (StatusCode resp);
           AString (remote_url endpoint ++ "/json/version")]))
  /\ (forall err, BodyClose resp = Some err ->
      In (Log LevelWarn "failed to close response body"
            [("error", AError err)])
         (emitted establish w)).
Proof.
  intros Hhp Hget establish. unfold establish, remote_url. clear establish.
  assert (Hne : endpoint <> "").
  { destruct Hhp as [h [p [-> [Hh _]]]]. destruct h; [congruence|discriminate]. }
  apply endpoint_format_ok_spec in Hhp.
  pass_validation Hne Hhp.
  go_establish. rewrite Hget.
  destruct resp as [status [cerr|]];
    cbn [BodyClose StatusCode fst snd trace];
    destruct (Z.eqb_spec status 200) as [E|E];
    cbn [negb fst snd trace is_Ok]; go_trace;
    (split; [reflexivity|]);
    (split; [intros H; first [contradiction | reflexivity]|]);
    intros err Herr; first [discriminate Herr | injection Herr as <-];
    cbn; auto 10.
Qed.

Lemma probe_status_decides_witness :
  is_Ok (fst (InitializeChromedp ok_env "https://example.com" 10 2
                "localhost:9222" "" empty_world))
  = (200 =? 200)%Z.
Proof.
  refine (proj1 (probe_status_decides ok_env "https://example.com" 10 2
                   "localhost:9222" "" empty_world
                   {| StatusCode := 200; BodyClose := None |} _ _)).
  - apply endpoint_format_ok_spec. reflexivity.
  - reflexivity.
Defined.

(** ** [NavigateAndPrepare] and [executeJSAction]: failures *)

Ltac go_pipeline :=
  unfold NavigateAndPrepare, executeJSAction, chromedp_Run, chromedp_Navigate,
    chromedp_Sleep, runtime_Evaluate_await, chromedp_Evaluate_any;
  cbn [Tasks_Do].

(** X6.  Every run of [NavigateAndPrepare] ends with a record of its
    outcome: the Error record "Failed to navigate and prepare page" with
    the target and the very error that is returned, or the Debug record
    of completion when nil is returned.  No failure goes unlogged. *)
Theorem prepare_outcome_is_logged (env : Env) (b : Browser) (w : World) :
  exists before,
    emitted (NavigateAndPrepare env b) w
    = (before ++
       [match fst (NavigateAndPrepare env b w) with
        | Some e =>
            Log LevelError "Failed to navigate and prepare page"
              [("url", AString (TargetURL b)); ("error", AError e)]
        | None =>
            Log LevelDebug "Navigation and preparation completed successfully"
              []
        end])%list.
Proof.
  go_pipeline.
  destruct (JSCode b =? ""); [|destruct (Strings.Contains (JSCode b) "await")];
    go_cases;
    match goal with
    | |- exists before, ?l = _ =>
        let n := eval cbv in (List.length l - 1)%nat in
        exists (firstn n l); reflexivity
    end.
Qed.

(** X7.  On a session that starts, a navigation that fails ends the
    pipeline at once: the error is returned as the browser gave it, and
    neither the sleep nor the script is issued.  Likewise a sleep that
    fails (the deadline passing during the delay) is returned as it is,
    before any script is sent. *)
Theorem failed_step_stops_pipeline
  (env : Env) (b : Browser) (w : World) (e : error) :
  (forall h, run_start env h (Ctx b) = None) ->
  ((forall h, do_Navigate env h (Ctx b) (TargetURL b) = Some e) ->
   fst (NavigateAndPrepare env b w) = Some e
   /\ commands_of (emitted (NavigateAndPrepare env b) w)
      = [(Ctx b, Navigate (TargetURL b))])
  /\ ((forall h, do_Navigate env h (Ctx b) (TargetURL b) = None) ->
      (forall h d, do_Sleep env h (Ctx b) d = Some e) ->
      fst (NavigateAndPrepare env b w) = Some e
      /\ commands_of (emitted (NavigateAndPrepare env b) w)
         = [(Ctx b, Navigate (TargetURL b));
            (Ctx b, Sleep (GoInt.seconds (Delay b)))]).
Proof.
  intros Hrun. split.
  - intros Hnav. go_pipeline. go_unfold. rewrite Hrun. go_unfold.
    rewrite Hnav. go_unfold. go_trace. split; reflexivity.
  - intros Hnav Hsleep. go_pipeline. go_unfold. rewrite Hrun. go_unfold.
    rewrite Hnav. go_unfold. rewrite Hsleep. go_unfold. go_trace.
    split; reflexivity.
Qed.

Lemma failed_step_stops_pipeline_witness :
  fst (NavigateAndPrepare env_unreachable (session_with_script "await x")
         empty_world)
  = Some (ExternalError "net::ERR_NAME_NOT_RESOLVED")
  /\ commands_of (emitted (NavigateAndPrepare env_unreachable
                             (session_with_script "await x")) empty_world)
     = [(1%nat, Navigate "https://example.com")].
Proof.
  refine (proj1 (failed_step_stops_pipeline env_unreachable
                   (session_with_script "await x") empty_world
                   (ExternalError "net::ERR_NAME_NOT_RESOLVED") _) _);
    reflexivity.
Defined.

(** X8.  The errors of the script step, for a configured script.  With
    'await': an exception or a rejected promise reported by the browser
    becomes "JavaScript exception: " followed by the browser's text,
    unchanged; a failure of the call itself is wrapped as "failed to
    execute custom JavaScript".  Without 'await' every failure, a thrown
    exception included, is wrapped as "failed to execute custom
    JavaScript".  Each is logged at level Error before it is returned. *)
Theorem script_failure_errors
  (S : Type) (env : Env) (b : Browser) (ctx : ctx_id) (s : S) (w : World) :
  JSCode b <> "" ->
  let inject := executeJSAction env b ctx s in
  (Strings.Contains (JSCode b) "await" = true ->
   forall text,
     (forall h x, do_RuntimeEvaluate env h ctx x = Ok (Some text)) ->
     fst (fst (inject w))
     = Some (Errorf "JavaScript exception: %s" [AString text])
     /\ In (Log LevelError "JavaScript exception during execution"
              [("exception", AString text)])
           (emitted inject w))
  /\ (Strings.Contains (JSCode b) "await" = true ->
      forall err,
        (forall h x, do_RuntimeEvaluate env h ctx x = Err err) ->
        fst (fst (inject w))
        = Some (Errorf "failed to execute custom JavaScript: %w"
                  [AError err])
        /\ In (Log LevelError "Failed to execute custom JavaScript"
                 [("error", AError err)])
              (emitted inject w))
  /\ (Strings.Contains (JSCode b) "await" = false ->
      forall err,
        (forall h x, do_Evaluate_any env h ctx x = Some err) ->
        fst (fst (inject w))
        = Some (Errorf "failed to execute custom JavaScript: %w"
                  [AError err])
        /\ In (Log LevelError "Failed to execute custom JavaScript"
                 [("error", AError err)])
              (emitted inject w)).
Proof.
  intros Hne inject. unfold inject. clear inject.
  apply String.eqb_neq in Hne.
  unfold executeJSAction, runtime_Evaluate_await, chromedp_Evaluate_any.
  rewrite Hne.
  split; [|split]; intros Ha x Hx; rewrite Ha; go_unfold; rewrite Hx;
    go_unfold; go_trace; (split; [reflexivity | cbn; auto]).
Qed.

Lemma script_failure_errors_witness :
  fst (fst (executeJSAction (S := unit) env_unreachable
              (session_with_script "await x") 1%nat tt empty_world))
  = Some (Errorf "JavaScript exception: %s"
            [AString "Uncaught (in promise) boom"])
  /\ fst (fst (executeJSAction (S := unit) env_unreachable
                 (session_with_script "x") 1%nat tt empty_world))
     = Some (Errorf "failed to execute custom JavaScript: %w"
               [AError (ExternalError "ReferenceError")]).
Proof.
  split.
  - refine (proj1 (proj1 (script_failure_errors unit env_unreachable
                            (session_with_script "await x") 1%nat tt
                            empty_world _) _
                     "Uncaught (in promise) boom" _));
      [discriminate | reflexivity | reflexivity].
  - refine (proj1 (proj2 (proj2 (script_failure_errors unit env_unreachable
                                   (session_with_script "x") 1%nat tt
                                   empty_world _)) _
                     (ExternalError "ReferenceError") _));
      [discriminate | reflexivity | reflexivity].
Defined.

(** ** The listener: exceptions, dialogs, other events *)

Lemma commands_of_frame_records (frames : list CallFrame) :
  commands_of (map frame_record frames) = [].
Proof. induction frames as [|f frames IH]; [reflexivity | exact IH]. Qed.

(** A loop that emits one event per element. *)
Lemma for_range_world {A} (f : A -> event) (xs : list A) (w : World) :
  for_range xs (fun x => emit (f x)) w
  = (tt, {| trace := (trace w ++ map f xs)%list; contexts := contexts w |}).
Proof.
  revert w. induction xs as [|x xs IH]; intros w.
  - destruct w as [t c]. cbn. now rewrite app_nil_r.
  - cbn [for_range map]. unfold bind at 1, emit at 1. rewrite IH.
    cbn [trace contexts]. now rewrite <- app_assoc.
Qed.

Lemma exception_world (ctx : ctx_id) (details : ExceptionDetails)
  (w : World) :
  snd (console_listener ctx (EventExceptionThrown details) w)
  = {| trace :=
         (trace w ++
          Log LevelError "JavaScript exception captured"
            [("text", AString (Text details))]
          :: match StackTrace details with
             | Some frames => map frame_record frames
             | None => []
             end)%list;
       contexts := contexts w |}.
Proof.
  unfold console_listener, slog_Error, slog_Debug, bind. unfold emit at 1.
  destruct (StackTrace details) as [frames|].
  - change (fun frame : CallFrame =>
              emit (Log LevelDebug "Stack trace frame"
                      [("function", AString (FunctionName frame));
                       ("url", AString (URL frame));
                       ("line", AInt (LineNumber frame));
                       ("column", AInt (ColumnNumber frame))]))
      with (fun frame : CallFrame => emit (frame_record frame)).
    rewrite for_range_world. cbn [snd trace contexts].
    now rewrite <- app_assoc.
  - reflexivity.
Qed.

(** X9.  An uncaught exception of the page is reported by one Error
    record with the exception's text, followed by one Debug record for
    each frame of the stack trace, in the order of the frames; without a
    stack trace the Error record is all. *)
Theorem exception_event_records
  (ctx : ctx_id) (text : string) (stack : option (list CallFrame))
  (w : World) :
  emitted (console_listener ctx
             (EventExceptionThrown {| Text := text; StackTrace := stack |}))
          w
  = (Log LevelError "JavaScript exception captured" [("text", AString text)]
     :: match stack with
        | Some frames => map frame_record frames
        | None => []
        end)%list.
Proof.
  unfold emitted. rewrite exception_world. cbn [trace Text StackTrace].
  apply skipn_length_app.
Qed.

Lemma In_frame_records (e : event) (frames : list CallFrame) :
  In e (map frame_record frames) -> is_log e = true.
Proof. intros H. apply in_map_iff in H. destruct H as [f [<- _]]. reflexivity. Qed.

(** X10.  Whatever event is delivered, the listener issues no browser
    command and creates no context: it only writes log records, and for
    a dialog starts the goroutine that accepts it.  An event that is
    neither a console call, an exception nor a dialog leaves no trace at
    all. *)
Theorem listener_only_logs
  (ctx : ctx_id) (ev : browser_event) (w : World) :
  let handled := console_listener ctx ev in
  commands_of (emitted handled w) = []
  /\ (forall e, In e (emitted handled w) ->
                is_log e = true \/ e = Go (AcceptDialog ctx))
  /\ contexts (snd (handled w)) = contexts w
  /\ (forall name, ev = OtherEvent name -> emitted handled w = []).
Proof.
  intros handled. unfold handled. clear handled.
  destruct ev as [type args|details| |name].
  - unfold console_listener. go_unfold. go_trace.
    split; [reflexivity|]. split; [intros e H; in_cases H; now left|].
    split; [reflexivity | discriminate].
  - unfold emitted. rewrite exception_world. cbn [trace contexts].
    rewrite skipn_length_app.
    split.
    { cbn [commands_of].
      destruct (StackTrace details); [apply commands_of_frame_records|];
        reflexivity. }
    split.
    { intros e [<-|H]; [now left|]. left.
      destruct (StackTrace details); [now apply In_frame_records in H|].
      contradiction. }
    split; [reflexivity | discriminate].
  - unfold console_listener. go_unfold. go_trace.
    split; [reflexivity|]. split.
    { intros e [<-|[<-|[]]]; [left | right]; reflexivity. }
    split; [reflexivity | discriminate].
  - unfold console_listener. go_unfold. go_trace.
    split; [reflexivity|]. split; [intros e []|].
    split; reflexivity.
Qed.


(** ** The executors: results and failures *)

(** X12.  On a session that starts, [TakeScreenshot] and [PrintToPDF]
    hand over what the browser answered to the one command they issue:
    the bytes as they are, or the error as it is, without wrapping. *)
Theorem captures_are_handed_over (env : Env) (b : Browser) (w : World) :
  (forall h, run_start env h (Ctx b) = None) ->
  fst (TakeScreenshot env b w)
  = do_FullScreenshot env
      (trace w ++ [Log LevelDebug "Taking screenshot" []; RunCalled (Ctx b);
                   Do (Ctx b) (FullScreenshot 90)])%list (Ctx b)
  /\ fst (PrintToPDF env b w)
     = do_PrintToPDF env
         (trace w ++ [Log LevelDebug "Generating PDF" []; RunCalled (Ctx b);
                      Do (Ctx b) (PagePrintToPDF true)])%list (Ctx b).
Proof.
  intros Hrun. split.
  - unfold TakeScreenshot, chromedp_Run, chromedp_FullScreenshot.
    cbn [Tasks_Do]. go_unfold. rewrite Hrun. go_unfold.
    repeat rewrite <- app_assoc. cbn [app].
    destruct (do_FullScreenshot env _ (Ctx b)); reflexivity.
  - unfold PrintToPDF, chromedp_Run, page_PrintToPDF_background.
    cbn [Tasks_Do]. go_unfold. rewrite Hrun. go_unfold.
    repeat rewrite <- app_assoc. cbn [app].
    destruct (do_PrintToPDF env _ (Ctx b)); reflexivity.
Qed.

Lemma captures_are_handed_over_witness :
  fst (TakeScreenshot ok_env (session_with_script "") empty_world) = Ok []
  /\ fst (PrintToPDF ok_env (session_with_script "") empty_world) = Ok [].
Proof.
  refine (captures_are_handed_over ok_env (session_with_script "")
            empty_world _).
  reflexivity.
Defined.

(** X13.  On a session that cannot start a run any more (cancelled, or
    past its deadline), every executor fails with the error of the
    session, and issues no browser command. *)
Theorem dead_session_fails_every_executor
  (env : Env) (x : executor) (b : Browser) (w : World) (e : error) :
  (forall h, run_start env h (Ctx b) = Some e) ->
  fst (run_executor env x b w) = Some e
  /\ commands_of (emitted (run_executor env x b) w) = [].
Proof.
  intros Hrun. destruct x; go_executor; go_unfold; rewrite Hrun; go_unfold;
    go_trace; split; reflexivity.
Qed.

Lemma dead_session_fails_every_executor_witness :
  fst (run_executor env_expired (TextBySelector "h1") (session_with_script "")
         empty_world)
  = Some (ExternalError "context deadline exceeded")
  /\ commands_of (emitted (run_executor env_expired (TextBySelector "h1")
                             (session_with_script "")) empty_world) = [].
Proof.
  refine (dead_session_fails_every_executor env_expired (TextBySelector "h1")
            (session_with_script "") empty_world
            (ExternalError "context deadline exceeded") _).
  reflexivity.
Defined.

Lemma Split_concat_LF (texts : list string) :
  texts <> [] ->
  Forall (fun t => Strings.Contains t LF = false) texts ->
  Strings.Split (String.concat LF texts) LF = texts.
Proof.
  intros Hne H. unfold Strings.Split, LF.
  induction H as [|t ts Ht Hts IH]; [congruence|].
  destruct ts as [|t' ts].
  - cbn [String.concat]. rewrite (split_from_no_sep _ "" t Ht). reflexivity.
  - change (String.concat (String "010" "") (t :: t' :: ts))
      with (t ++ String "010" ""
              ++ String.concat (String "010" "") (t' :: ts)).
    rewrite (split_from_first _ "" t _ Ht). cbn [append].
    rewrite IH by discriminate. reflexivity.
Qed.

(** X14.  The result of [GetTextBySelector] can be taken apart again:
    when the query gave at least one text and no text contains a
    newline, splitting the result at the newlines gives back the texts,
    one per matching element, in order. *)
Theorem joined_texts_split_back (texts : list string) :
  texts <> [] ->
  Forall (fun t => Strings.Contains t LF = false) texts ->
  Strings.Split (join_texts 0 "" texts) LF = texts.
Proof.
  intros Hne H. rewrite join_texts_concat. now apply Split_concat_LF.
Qed.

Lemma joined_texts_split_back_witness :
  Strings.Split (join_texts 0 "" ["Title"; "Body"; "Footer"]) LF
  = ["Title"; "Body"; "Footer"].
Proof.
  apply (joined_texts_split_back ["Title"; "Body"; "Footer"]).
  - discriminate.
  - repeat constructor.
Defined.

Lemma len_append (a b : string) : len (a ++ b) = len a + len b.
Proof. unfold len. rewrite length_append. lia. Qed.

(** X15.  The length of the result of the joining loop, the
    "totalTextLength" that [GetTextBySelector] logs, is the sum of the
    lengths of the texts plus one for each gap between two texts. *)
Theorem joined_texts_length (texts : list string) :
  len (join_texts 0 "" texts)
  = total_length texts + Z.of_nat (List.length texts - 1).
Proof.
  rewrite join_texts_concat.
  induction texts as [|t ts IH]; [reflexivity|].
  destruct ts as [|t' ts].
  - cbn [String.concat total_length fold_right List.length]. simpl. lia.
  - change (String.concat LF (t :: t' :: ts))
      with (t ++ LF ++ String.concat LF (t' :: ts)).
    rewrite !len_append, IH.
    change (len LF) with 1.
    cbn [total_length fold_right List.length].
    fold (total_length ts). lia.
Qed.

(** ** [main.go]: validation and the frame of the run *)

Lemma set_Timeout_same (cfg : Main.Config) :
  Main.set_Timeout cfg (Main.Timeout cfg) = cfg.
Proof. destruct cfg; reflexivity. Qed.

(** The configuration that lines 158-181 leave behind. *)
Lemma validate_config_cfg (cfg : Main.Config) (w : World) :
  0 <= Main.Delay cfg ->
  fst (fst (Main.validate_config cfg w))
  = Main.set_Timeout cfg
      (if (Main.Timeout cfg <=? GoInt.add (Main.Delay cfg) 10)%Z
       then GoInt.add (Main.Delay cfg) 10 else Main.Timeout cfg).
Proof.
  intros Hd. unfold Main.validate_config.
  replace (Main.Delay cfg <? 0)%Z with false by (symmetry; apply Z.ltb_ge; lia).
  destruct (60 <? Main.Delay cfg)%Z;
    destruct (Main.Timeout cfg <=? GoInt.add (Main.Delay cfg) 10)%Z;
    go_unfold;
    destruct cfg as [cl sc pdf gb sel t d tg ll rp]; cbn;
    destruct cl, sc, pdf, gb, (sel =? ""); reflexivity.
Qed.

(** X16.  For a delay between 0 and [MaxInt - 10], validation leaves a
    timeout of at least ten seconds more than the delay, never lowers the
    configured timeout, and changes no other field of the configuration. *)
Theorem validated_timeout_margin (cfg : Main.Config) (w : World) :
  0 <= Main.Delay cfg <= GoInt.MaxInt - 10 ->
  let cfg' := fst (fst (Main.validate_config cfg w)) in
  Main.Delay cfg' + 10 <= Main.Timeout cfg'
  /\ Main.Timeout cfg <= Main.Timeout cfg'
  /\ cfg' = Main.set_Timeout cfg (Main.Timeout cfg').
Proof.
  intros Hd cfg'. unfold cfg'. clear cfg'.
  rewrite validate_config_cfg by lia. rewrite add_10_exact by lia.
  destruct (Z.leb_spec (Main.Timeout cfg) (Main.Delay cfg + 10));
    destruct cfg as [cl sc pdf gb sel t d tg ll rp];
    cbn [Main.set_Timeout Main.Timeout Main.Delay] in *;
    repeat split; lia.
Qed.

Lemma validated_timeout_margin_witness :
  let cfg' :=
    fst (fst (Main.validate_config (screenshot_cfg 10 15) empty_world)) in
  Main.Delay cfg' + 10 <= Main.Timeout cfg'
  /\ Main.Timeout (screenshot_cfg 10 15) <= Main.Timeout cfg'
  /\ cfg' = Main.set_Timeout (screenshot_cfg 10 15) (Main.Timeout cfg').
Proof.
  refine (validated_timeout_margin (screenshot_cfg 10 15) empty_world _).
  cbv. split; discriminate.
Defined.

(** X17.  Validation is idempotent on the configuration: validating the
    validated configuration again gives the same configuration.  The
    test being inclusive, a timeout that is exactly the delay plus ten is
    still reported as adjusted, with the new timeout equal to the
    original one. *)
Theorem validation_is_idempotent (cfg : Main.Config) (w w2 : World) :
  0 <= Main.Delay cfg ->
  let cfg' := fst (fst (Main.validate_config cfg w)) in
  fst (fst (Main.validate_config cfg' w2)) = cfg'
  /\ (Main.Timeout cfg = GoInt.add (Main.Delay cfg) 10 ->
      cfg' = cfg
      /\ In (Main.timeout_adjusted_record (Main.Timeout cfg) (Main.Delay cfg)
               (Main.Timeout cfg))
            (emitted (Main.validate_config cfg) w)).
Proof.
  intros Hd cfg'. unfold cfg'. clear cfg'. split.
  - rewrite (validate_config_cfg cfg w Hd).
    rewrite validate_config_cfg
      by (destruct cfg; cbn [Main.set_Timeout Main.Delay] in *; exact Hd).
    destruct cfg as [cl sc pdf gb sel t d tg ll rp].
    cbn [Main.set_Timeout Main.Timeout Main.Delay] in *.
    destruct (Z.leb_spec t (GoInt.add d 10)) as [H|H].
    + now rewrite Z.leb_refl.
    + apply Z.leb_gt in H. now rewrite H.
  - intros Ht. split.
    + rewrite (validate_config_cfg cfg w Hd), <- Ht, Z.leb_refl.
      apply set_Timeout_same.
    + pose proof (proj2 (validate_config_logs_adjustment cfg w Hd)) as H.
      rewrite <- Ht in H. apply H. apply Z.leb_refl.
Qed.

Lemma validation_is_idempotent_witness :
  let cfg' :=
    fst (fst (Main.validate_config (screenshot_cfg 12 2) empty_world)) in
  fst (fst (Main.validate_config cfg' empty_world)) = cfg'
  /\ (Main.Timeout (screenshot_cfg 12 2)
      = GoInt.add (Main.Delay (screenshot_cfg 12 2)) 10 ->
      cfg' = screenshot_cfg 12 2
      /\ In (Main.timeout_adjusted_record 12 2 12)
            (emitted (Main.validate_config (screenshot_cfg 12 2))
                     empty_world)).
Proof.
  refine (validation_is_idempotent (screenshot_cfg 12 2) empty_world
            empty_world _).
  cbv. discriminate.
Defined.

Lemma validate_config_refuses (cfg : Main.Config) (w : World) :
  Main.Delay cfg < 0 \/ requests_action cfg = false ->
  exists e, snd (fst (Main.validate_config cfg w)) = Some e.
Proof.
  intros H. destruct (Z.ltb_spec (Main.Delay cfg) 0) as [Hneg|Hpos].
  - unfold Main.validate_config. apply Z.ltb_lt in Hneg. rewrite Hneg.
    go_unfold. eexists. reflexivity.
  - destruct H as [H|H]; [lia|].
    destruct (snd (fst (Main.validate_config cfg w))) as [e|] eqn:E;
      [eexists; reflexivity|].
    apply validate_config_error in E; [congruence | exact Hpos].
Qed.

Lemma requests_action_set_Target (cfg : Main.Config) (target : string) :
  requests_action (Main.set_Target cfg target) = requests_action cfg.
Proof. reflexivity. Qed.

(** X18.  An invocation without target argument, with a negative delay
    or without any action returns an error before it asks for a session:
    the outcome is the same whatever the session establisher and the
    action code would do, so neither of them is reached. *)
Theorem configuration_errors_precede_session
  (env : Env)
  (establish establish' : string -> Z -> Z -> string -> M (result Browser))
  (actions actions' : Main.Config -> Browser -> M (option error))
  (cfg : Main.Config) (args : list string) (w : World) :
  args = [] \/ Main.Delay cfg < 0 \/ requests_action cfg = false ->
  Main.runThatCliWebBrowser env establish actions cfg args w
  = Main.runThatCliWebBrowser env establish' actions' cfg args w
  /\ snd (fst (Main.runThatCliWebBrowser env establish actions cfg args w))
     <> None.
Proof.
  intros H. destruct H as [-> | H].
  - unfold Main.runThatCliWebBrowser, Main.resolve_target. go_unfold.
    split; [reflexivity | discriminate].
  - unfold Main.runThatCliWebBrowser, bind.
    destruct (emit _ w) as [[] w1].
    destruct (slog_Debug _ _ w1) as [[] w2].
    destruct (Main.resolve_target env args w2) as [[target|e] w3];
      [|split; [reflexivity | discriminate]].
    destruct (validate_config_refuses (Main.set_Target cfg target) w3)
      as [e He].
    { destruct H as [H|H]; [left | right]; exact H. }
    destruct (Main.validate_config (Main.set_Target cfg target) w3)
      as [[cfg' err] w4].
    cbn [fst snd] in He. subst err.
    split; [reflexivity | discriminate].
Qed.

Lemma configuration_errors_precede_session_witness :
  Main.runThatCliWebBrowser ok_env
    (fun _ _ _ _ => ret (Err (ExternalError "no browser")))
    (fun _ _ => ret None)
    (screenshot_cfg 10 (-1)) ["https://example.com"] empty_world
  = Main.runThatCliWebBrowser ok_env
      (fun _ _ _ _ => ret (Ok (session_with_script "")))
      (fun _ _ => ret (Some (ExternalError "action")))
      (screenshot_cfg 10 (-1)) ["https://example.com"] empty_world
  /\ snd (fst (Main.runThatCliWebBrowser ok_env
                 (fun _ _ _ _ => ret (Err (ExternalError "no browser")))
                 (fun _ _ => ret None)
                 (screenshot_cfg 10 (-1)) ["https://example.com"]
                 empty_world))
     <> None.
Proof.
  refine (configuration_errors_precede_session ok_env _ _ _ _
            (screenshot_cfg 10 (-1)) ["https://example.com"] empty_world _).
  right. left. reflexivity.
Defined.





(** ** [main.go]: the target *)

(** X21.  An input that is not blank and not an existing file is used as
    the target exactly as it was typed, whatever follows it on the
    command line.  An input that starts with none of "http://",
    "https://" and "file://" is warned about, and only then; it is not
    refused. *)
Theorem input_is_passed_through
  (env : Env) (input : string) (more : list string) (w : World) :
  strings_TrimSpace env input <> "" ->
  (forall h, os_Stat env h input <> None) ->
  fst (Main.resolve_target env (input :: more) w) = Ok input
  /\ (In (Log LevelWarn
            "Input does not appear to be a valid URL, treating as URL anyway"
            [("input", AString input)])
         (emitted (Main.resolve_target env (input :: more)) w)
      <-> Strings.HasPrefix input "http://" = false
          /\ Strings.HasPrefix input "https://" = false
          /\ Strings.HasPrefix input "file://" = false).
Proof.
  intros Hblank Hstat. apply String.eqb_neq in Hblank.
  unfold Main.resolve_target. rewrite Hblank. go_unfold.
  match goal with
  | |- context [os_Stat env ?h input] =>
      specialize (Hstat h); destruct (os_Stat env h input) as [e|];
        [|congruence]
  end.
  destruct (Strings.HasPrefix input "http://");
    destruct (Strings.HasPrefix input "https://");
    destruct (Strings.HasPrefix input "file://");
    go_unfold; cbn [andb]; go_unfold; go_trace;
    (split; [reflexivity|]);
    (split;
     [ intros H; first [ repeat split; reflexivity
                       | repeat (destruct H as [H|H]; [discriminate H|]);
                         contradiction ]
     | intros [H1 [H2 H3]]; first [ discriminate | cbn; auto 6 ] ]).
Qed.

Lemma input_is_passed_through_witness :
  fst (Main.resolve_target ok_env ["example.com"; "ignored"] empty_world)
  = Ok "example.com"
  /\ (In (Log LevelWarn
            "Input does not appear to be a valid URL, treating as URL anyway"
            [("input", AString "example.com")])
         (emitted (Main.resolve_target ok_env ["example.com"; "ignored"])
                  empty_world)
      <-> Strings.HasPrefix "example.com" "http://" = false
          /\ Strings.HasPrefix "example.com" "https://" = false
          /\ Strings.HasPrefix "example.com" "file://" = false).
Proof.
  refine (input_is_passed_through ok_env "example.com" ["ignored"]
            empty_world _ _).
  - discriminate.
  - discriminate.
Defined.

(** X22.  An input that names an existing file becomes the target
    "file://" followed by its absolute path, also when the input looks
    like a URL, and without a warning; if the absolute path cannot be
    determined, the error says so and wraps the cause. *)
Theorem existing_file_becomes_file_url
  (env : Env) (input : string) (more : list string) (w : World) :
  strings_TrimSpace env input <> "" ->
  (forall h, os_Stat env h input = None) ->
  let resolve := Main.resolve_target env (input :: more) in
  (forall abs,
     (forall h, filepath_Abs env h input = Ok abs) ->
     fst (resolve w) = Ok ("file://" ++ abs)
     /\ forall ev, In ev (emitted resolve w) ->
          ev = OsStat input
          \/ exists msg attrs, ev = Log LevelDebug msg attrs)
  /\ (forall err,
        (forall h, filepath_Abs env h input = Err err) ->
        fst (resolve w)
        = Err (Errorf "failed to get absolute path for %q: %w"
                 [AString input; AError err])).
Proof.
  intros Hblank Hstat resolve. unfold resolve. clear resolve.
  apply String.eqb_neq in Hblank.
  unfold Main.resolve_target. rewrite Hblank. go_unfold. rewrite Hstat.
  split.
  - intros abs Habs. rewrite Habs. go_unfold. go_trace.
    split; [reflexivity|]. intros ev H.
    repeat (destruct H as [<-|H]; [eauto 6|]). contradiction.
  - intros err Herr. rewrite Herr. reflexivity.
Qed.

Lemma existing_file_becomes_file_url_witness :
  fst (Main.resolve_target env_with_files ["http://index.html"] empty_world)
  = Ok "file:///work/http://index.html".
Proof.
  refine (proj1 (proj1 (existing_file_becomes_file_url env_with_files
                          "http://index.html" [] empty_world _ _)
                   "/work/http://index.html" _));
    [discriminate | reflexivity | reflexivity].
Defined.

(** ** [main.go]: the requested actions *)

Ltac go_actions :=
  unfold handle_actions, and_then, text_block, body_block, console_block,
    screenshot_block, pdf_block, save_capture, fmt_Println;
  cbn [api_GetTextBySelector api_GetBodyText api_CaptureConsoleLogs
       api_TakeScreenshot api_PrintToPDF chromedphelper_package].

Ltac go_package :=
  unfold GetBodyText, GetTextBySelector, CaptureConsoleLogs,
    SetupConsoleLogListeners, TakeScreenshot, PrintToPDF, chromedp_Run,
    chromedp_FullScreenshot, chromedp_Evaluate_strings,
    page_PrintToPDF_background;
  cbn [Tasks_Do].

(** X23.  With the package as it is and a session, a browser and a file
    system that do not fail, the requested actions run in one fixed
    order, text by selector, body text, console capture, screenshot, PDF,
    each at most once and only if requested.  The run returns nil; it
    prints each text followed by a newline, writes each capture with mode
    0644 to a file named after the time ("screenshot_<time>.png",
    "page_<time>.pdf") and prints where it was saved; console capture
    prints nothing and issues no browser command. *)
Theorem requested_actions_in_order
  (env : Env) (host : Host) (cfg : Main.Config) (b : Browser) (w : World)
  (texts_of : string -> list string) (img pdf : list Byte.byte)
  (now : string) :
  (forall h, run_start env h (Ctx b) = None) ->
  (forall h x, do_Evaluate_strings env h (Ctx b) x = Ok (texts_of x)) ->
  (forall h, do_FullScreenshot env h (Ctx b) = Ok img) ->
  (forall h, do_PrintToPDF env h (Ctx b) = Ok pdf) ->
  (forall h layout, time_Now_Format host h layout = now) ->
  (forall h name data perm, os_WriteFile host h name data perm = None) ->
  let run := handle_actions host (chromedphelper_package env) cfg b in
  let selector := Main.GetTextByCssSelector cfg in
  fst (run w)
  = (((if selector =? "" then []
       else [Printed (String.concat LF (texts_of (selector_expression selector))
                      ++ LF)])
      ++ (if Main.GetBody cfg
          then [Printed (String.concat LF (texts_of (selector_expression "body"))
                         ++ LF)]
          else [])
      ++ (if Main.Screenshot cfg
          then [WriteFileCalled ("screenshot_" ++ now ++ ".png") img 420;
                Printed ("Screenshot saved as "
                         ++ ("screenshot_" ++ now ++ ".png") ++ LF)]
          else [])
      ++ (if Main.PrintToPDF cfg
          then [WriteFileCalled ("page_" ++ now ++ ".pdf") pdf 420;
                Printed ("PDF saved as " ++ ("page_" ++ now ++ ".pdf") ++ LF)]
          else []))%list,
     None)
  /\ commands_of (emitted run w)
     = ((if selector =? "" then []
         else [(Ctx b, Evaluate (selector_expression selector)
                         IntoStrings false)])
        ++ (if Main.GetBody cfg
            then [(Ctx b, Evaluate (selector_expression "body")
                            IntoStrings false)]
            else [])
        ++ (if Main.Screenshot cfg then [(Ctx b, FullScreenshot 90)] else [])
        ++ (if Main.PrintToPDF cfg then [(Ctx b, PagePrintToPDF true)]
            else []))%list.
Proof.
  intros Hrun Htxt Himg Hpdf Hnow Hwrite run selector.
  unfold run, selector. clear run selector.
  destruct cfg as [cl sc pdfq gb sel t d tg ll rp].
  cbn [Main.GetTextByCssSelector Main.GetBody Main.Screenshot Main.PrintToPDF
       Main.ConsoleLog].
  go_actions.
  cbn [Main.GetTextByCssSelector Main.GetBody Main.Screenshot Main.PrintToPDF
       Main.ConsoleLog].
  go_package.
  destruct (sel =? ""), gb, cl, sc, pdfq; cbn [negb];
    repeat (go_unfold;
            try rewrite Hrun; try rewrite Htxt; try rewrite Himg;
            try rewrite Hpdf; try rewrite Hnow; try rewrite Hwrite);
    rewrite ?join_texts_concat; go_trace; cbn [commands_of app];
    split; reflexivity.
Qed.

Lemma requested_actions_in_order_witness :
  fst (handle_actions ok_host (chromedphelper_package ok_env)
         (all_actions_cfg "h1") (session_with_script "") empty_world)
  = ([Printed LF; Printed LF;
      WriteFileCalled "screenshot_20260102150405.png" [] 420;
      Printed ("Screenshot saved as screenshot_20260102150405.png" ++ LF);
      WriteFileCalled "page_20260102150405.pdf" [] 420;
      Printed ("PDF saved as page_20260102150405.pdf" ++ LF)],
     None)
  /\ commands_of (emitted (handle_actions ok_host (chromedphelper_package ok_env)
                             (all_actions_cfg "h1") (session_with_script ""))
                          empty_world)
     = [(1%nat, Evaluate (selector_expression "h1") IntoStrings false);
        (1%nat, Evaluate (selector_expression "body") IntoStrings false);
        (1%nat, FullScreenshot 90);
        (1%nat, PagePrintToPDF true)].
Proof.
  refine (requested_actions_in_order ok_env ok_host (all_actions_cfg "h1")
            (session_with_script "") empty_world (fun _ => []) [] []
            "20260102150405" _ _ _ _ _ _); reflexivity.
Defined.

(** X24.  When text by selector is requested and fails, the invocation
    ends there: nothing is printed or written, the error is the
    package's wrapped as "failed to get text by selector", and none of
    the other actions is attempted, whatever the request and the package
    are. *)
Theorem failed_text_extraction_ends_the_run
  (host : Host) (pkg : Package) (cfg : Main.Config) (b : Browser)
  (w : World) (e : error) :
  Main.GetTextByCssSelector cfg <> "" ->
  let selector := Main.GetTextByCssSelector cfg in
  let w1 := snd (slog_Debug "Getting text by CSS selector"
                   [("selector", AString selector)] w) in
  fst (api_GetTextBySelector pkg b selector w1) = Err e ->
  fst (handle_actions host pkg cfg b w)
  = ([], Some (Errorf "failed to get text by selector: %w" [AError e]))
  /\ trace (snd (handle_actions host pkg cfg b w))
     = (trace (snd (api_GetTextBySelector pkg b selector w1))
        ++ [Log LevelError "Failed to get text by selector"
              [("selector", AString selector); ("error", AError e)]])%list.
Proof.
  intros Hsel selector w1 Hfail. subst w1 selector.
  apply String.eqb_neq in Hsel.
  go_actions. rewrite Hsel. cbn [negb]. go_unfold.
  destruct (api_GetTextBySelector pkg b (Main.GetTextByCssSelector cfg) _)
    as [[text|err] w2].
  - discriminate Hfail.
  - cbn [fst] in Hfail. injection Hfail as ->. split; reflexivity.
Qed.

Lemma failed_text_extraction_ends_the_run_witness :
  fst (handle_actions ok_host (chromedphelper_package env_expired)
         (all_actions_cfg "h1") (session_with_script "") empty_world)
  = ([], Some (Errorf "failed to get text by selector: %w"
                 [AError (ExternalError "context deadline exceeded")])).
Proof.
  refine (proj1 (failed_text_extraction_ends_the_run ok_host
                   (chromedphelper_package env_expired)
                   (all_actions_cfg "h1") (session_with_script "")
                   empty_world (ExternalError "context deadline exceeded")
                   _ _)).
  - discriminate.
  - reflexivity.
Defined.

(** X25.  A screenshot that was taken but cannot be written is an error
    of the invocation: for a request of captures only, the one call of
    [os.WriteFile] is all that reaches the outputs, the error names the
    file and wraps the cause, no "saved as" line is printed, and the PDF
    is not attempted even if it was requested. *)
Theorem unwritable_screenshot_ends_the_run
  (host : Host) (pkg : Package) (cfg : Main.Config) (b : Browser)
  (w : World) (img : list Byte.byte) (now : string) (err : error) :
  Main.GetTextByCssSelector cfg = "" ->
  Main.GetBody cfg = false ->
  Main.ConsoleLog cfg = false ->
  Main.Screenshot cfg = true ->
  (forall w0, fst (api_TakeScreenshot pkg b w0) = Ok img) ->
  (forall h layout, time_Now_Format host h layout = now) ->
  (forall h name data perm, os_WriteFile host h name data perm = Some err) ->
  fst (handle_actions host pkg cfg b w)
  = ([WriteFileCalled ("screenshot_" ++ now ++ ".png") img 420],
     Some (Errorf "failed to save screenshot %q: %w"
             [AString ("screenshot_" ++ now ++ ".png"); AError err])).
Proof.
  intros Hsel Hbody Hcl Hsc Hshot Hnow Hwrite.
  go_actions. rewrite Hsel, Hbody, Hcl, Hsc. cbn [negb String.eqb].
  go_unfold.
  match goal with
  | |- context [api_TakeScreenshot pkg b ?w0] =>
      specialize (Hshot w0);
        destruct (api_TakeScreenshot pkg b w0) as [[buf|e0] w2]
  end; [|discriminate Hshot].
  cbn [fst] in Hshot. injection Hshot as ->.
  go_unfold. rewrite Hnow, Hwrite. reflexivity.
Qed.

Lemma unwritable_screenshot_ends_the_run_witness :
  fst (handle_actions full_disk_host (chromedphelper_package ok_env)
         (screenshot_cfg 12 2) (session_with_script "") empty_world)
  = ([WriteFileCalled "screenshot_20260102150405.png" [] 420],
     Some (Errorf "failed to save screenshot %q: %w"
             [AString "screenshot_20260102150405.png";
              AError (ExternalError "no space left on device")])).
Proof.
  refine (unwritable_screenshot_ends_the_run full_disk_host
            (chromedphelper_package ok_env) (screenshot_cfg 12 2)
            (session_with_script "") empty_world []
            "20260102150405" (ExternalError "no space left on device")
            _ _ _ _ _ _ _); reflexivity.
Defined.

(** ** The earlier revision of the package *)

(** X26.  In the earlier revision every executor loads the target
    itself: the browser commands of a call are an initial segment of
    navigate, capture, so the capture is never issued without a
    navigation right before it. *)
Theorem legacy_executor_commands
  (env : Env) (x : executor) (b : Legacy.Browser) (w : World) :
  let issued := commands_of (emitted (run_legacy_executor env x b) w) in
  issued = []
  \/ issued = [(Legacy.Ctx b, Navigate (Legacy.TargetURL b))]
  \/ exists capture,
       issued = [(Legacy.Ctx b, Navigate (Legacy.TargetURL b));
                 (Legacy.Ctx b, capture)]
       /\ is_navigation capture = false.
Proof.
  intros issued. unfold issued. clear issued.
  destruct x;
    unfold run_legacy_executor, Legacy.GetBodyText, Legacy.GetTextBySelector,
      Legacy.TakeScreenshot, Legacy.PrintToPDF, chromedp_Run,
      chromedp_Navigate, chromedp_FullScreenshot, chromedp_Evaluate_strings,
      page_PrintToPDF_background;
    cbn [Tasks_Do]; go_cases; cbn [commands_of];
    first [ left; reflexivity
          | right; left; reflexivity
          | right; right; eexists; split; reflexivity ].
Qed.

(** X27.  In the earlier revision [CaptureConsoleLogs] registers its
    listener first and then loads the target; it issues that one
    navigation at most, and returns nil exactly when its last record is
    the one of completion. *)
Theorem legacy_capture_listens_then_loads
  (env : Env) (b : Legacy.Browser) (w : World) :
  let capture := Legacy.CaptureConsoleLogs env b in
  (exists after,
     emitted capture w
     = (Log LevelDebug "Setting up console log listeners" []
        :: ListenTarget (Legacy.Ctx b) (LegacyConsoleListener (Legacy.Ctx b))
        :: after)%list)
  /\ (commands_of (emitted capture w) = []
      \/ commands_of (emitted capture w)
         = [(Legacy.Ctx b, Navigate (Legacy.TargetURL b))])
  /\ (fst (capture w) = None
      <-> exists before,
            emitted capture w
            = (before ++ [Log LevelDebug "Console log capture completed" []])
              %list).
Proof.
  intros capture. unfold capture. clear capture.
  unfold Legacy.CaptureConsoleLogs, chromedp_Run, chromedp_Navigate.
  cbn [Tasks_Do]. go_cases; cbn [commands_of];
    (split; [eexists; reflexivity|]); (split; [auto|]);
    (split;
     [ intros H; first [ discriminate H | eexists [_; _; _; _; _]; reflexivity ]
     | intros [before H]; first [ reflexivity | exfalso ] ]).
  - apply (f_equal (@rev event)) in H. rewrite rev_app_distr in H.
    cbn in H. discriminate H.
  - apply (f_equal (@rev event)) in H. rewrite rev_app_distr in H.
    cbn in H. discriminate H.
Qed.
